(** * The streaming chatbot of [sse_chatbot.py]: conversation history and SSE decoding

    [OpenAIChatbot] keeps an ordered history of messages and a system
    prompt.  [chat] records the user's turn, posts the whole conversation,
    reads the server-sent event stream line by line, prints every content
    fragment as it arrives, and stores the concatenation as the assistant's
    turn; on failure it takes the user's turn back.

    The embedding follows the Python text.  Mutation of [self] and printing
    are effects of a small state-and-exception monad; exceptions are raised
    and caught by class, as [try]/[except] does; the values [json.loads]
    returns keep Python's dynamic types, because the decoder's behaviour on
    a value that is not a dict is decided by them.

    The transport and [json.loads] are parameters: the theorems hold for
    whatever [requests.post] answers and whatever [json.loads] returns or
    raises.  A response body is a finite sequence of lines that ends or
    breaks off with an exception, and [print] itself does not fail: the
    standard output is open and can encode the text it is given. *)

From Stdlib Require Import String Ascii List ZArith Bool Lia DecimalString.
Import ListNotations.
Local Open Scope list_scope.
Local Open Scope string_scope.
Set Warnings "-register-all".

(** ** Python's run-time: exceptions and the values of [json.loads] *)

Module Py.

(** The exception classes this program can tell apart.  [KeyboardInterrupt]
    is that class itself, and [OtherBaseException] the other classes that
    derive from [BaseException] only ([SystemExit], [GeneratorExit]).
    [Timeout] stands for [requests.exceptions.Timeout] and its subclasses,
    [RequestException] for every other
    [requests.exceptions.RequestException] (connection errors, [HTTPError]
    of [raise_for_status], ...), and [OtherException] for any other
    subclass of [Exception]. *)
Inductive exn_class :=
| KeyboardInterrupt
| OtherBaseException
| Timeout
| RequestException
| JSONDecodeError
| UnicodeDecodeError
| TypeError
| AttributeError
| KeyError
| IndexError
| OtherException.

(** An exception object: its class and the text [str(e)] gives.  The texts
    of the errors raised by the interpreter are those of CPython 3.11. *)
Record exn := mkExn { exn_class_of : exn_class; str_exn : string }.

(** [isinstance(e, Exception)]. *)
Definition is_Exception (e : exn) : bool :=
  match exn_class_of e with
  | KeyboardInterrupt | OtherBaseException => false
  | _ => true
  end.

(** [isinstance(e, requests.exceptions.Timeout)]. *)
Definition is_Timeout (e : exn) : bool :=
  match exn_class_of e with Timeout => true | _ => false end.

(** [isinstance(e, requests.exceptions.RequestException)]. *)
Definition is_RequestException (e : exn) : bool :=
  match exn_class_of e with Timeout | RequestException => true | _ => false end.

(** [isinstance(e, json.JSONDecodeError)]. *)
Definition is_JSONDecodeError (e : exn) : bool :=
  match exn_class_of e with JSONDecodeError => true | _ => false end.

(** What an expression evaluates to: a value, or an exception in flight. *)
Inductive outcome (A : Type) :=
| Return (a : A)
| Raise (e : exn).
Arguments Return {A} a.
Arguments Raise {A} e.

(** The objects [json.loads] builds.  A float is kept as the literal it was
    read from; a dict keeps its items in insertion order, one per key. *)
Inductive value :=
| VNone
| VBool (b : bool)
| VInt (z : Z)
| VFloat (literal : string)
| VStr (s : string)
| VList (items : list value)
| VDict (items : list (string * value)).

(** [type(v).__name__]. *)
Definition type_name (v : value) : string :=
  match v with
  | VNone => "NoneType"
  | VBool _ => "bool"
  | VInt _ => "int"
  | VFloat _ => "float"
  | VStr _ => "str"
  | VList _ => "list"
  | VDict _ => "dict"
  end.

(** The double quote, and the line feed. *)
Definition dquote : string :=
  String (Ascii false true false false false true false false) EmptyString.
Definition newline : string :=
  String (Ascii false true false true false false false false) EmptyString.

(** [d.get(k)] on the items of a dict. *)
Fixpoint dict_lookup (k : string) (d : list (string * value)) : option value :=
  match d with
  | [] => None
  | (k', v) :: d' => if String.eqb k' k then Some v else dict_lookup k d'
  end.

(** [d[k] = v]: the value of an existing key is replaced in place, a new key
    goes last. *)
Fixpoint dict_set (k : string) (v : value) (d : list (string * value))
  : list (string * value) :=
  match d with
  | [] => [(k, v)]
  | (k', v') :: d' =>
      if String.eqb k' k then (k', v) :: d' else (k', v') :: dict_set k v d'
  end.

(** [needle in haystack] on two strs. *)
Definition substring_in (needle haystack : string) : bool :=
  match String.index 0 needle haystack with
  | Some _ => true
  | None => false
  end.

(** [k == x] for a str [k]: only an equal str is equal to it. *)
Definition str_equals (k : string) (x : value) : bool :=
  match x with
  | VStr s => String.eqb k s
  | _ => false
  end.

(** [k in v] for a str [k].  A dict is searched by key, a list by element, a
    str by substring; the other types are not containers. *)
Definition contains (k : string) (v : value) : outcome bool :=
  match v with
  | VDict d =>
      Return (match dict_lookup k d with Some _ => true | None => false end)
  | VList l => Return (existsb (str_equals k) l)
  | VStr s => Return (substring_in k s)
  | _ =>
      Raise (mkExn TypeError
               ("argument of type '" ++ type_name v ++ "' is not iterable"))
  end.

(** [len(v)].  Of the length of a str only whether it is positive is used. *)
Definition len (v : value) : outcome Z :=
  match v with
  | VDict d => Return (Z.of_nat (List.length d))
  | VList l => Return (Z.of_nat (List.length l))
  | VStr s => Return (Z.of_nat (String.length s))
  | _ =>
      Raise (mkExn TypeError
               ("object of type '" ++ type_name v ++ "' has no len()"))
  end.

(** [v[k]] for a str [k]. *)
Definition getitem_str (v : value) (k : string) : outcome value :=
  match v with
  | VDict d =>
      match dict_lookup k d with
      | Some x => Return x
      | None => Raise (mkExn KeyError ("'" ++ k ++ "'"))
      end
  | VList _ =>
      Raise (mkExn TypeError "list indices must be integers or slices, not str")
  | VStr _ =>
      Raise (mkExn TypeError "string indices must be integers, not 'str'")
  | _ =>
      Raise (mkExn TypeError
               ("'" ++ type_name v ++ "' object is not subscriptable"))
  end.

(** [v[0]].  The keys of a dict read from JSON are strs, so the int [0] is
    never among them; the first character of a str is again a str. *)
Definition getitem_0 (v : value) : outcome value :=
  match v with
  | VList (x :: _) => Return x
  | VList [] => Raise (mkExn IndexError "list index out of range")
  | VStr (String c _) => Return (VStr (String c EmptyString))
  | VStr EmptyString => Raise (mkExn IndexError "string index out of range")
  | VDict _ => Raise (mkExn KeyError "0")
  | _ =>
      Raise (mkExn TypeError
               ("'" ++ type_name v ++ "' object is not subscriptable"))
  end.

(** [v.get(k, default)]: a method of dict only. *)
Definition get (v : value) (k : string) (default : value) : outcome value :=
  match v with
  | VDict d =>
      Return (match dict_lookup k d with Some x => x | None => default end)
  | _ =>
      Raise (mkExn AttributeError
               ("'" ++ type_name v ++ "' object has no attribute 'get'"))
  end.

(** [s += v] for a str [s]: only a str can be appended. *)
Definition iadd_str (s : string) (v : value) : outcome string :=
  match v with
  | VStr t => Return (s ++ t)
  | _ =>
      Raise (mkExn TypeError
               ("can only concatenate str (not " ++ dquote ++ type_name v
                  ++ dquote ++ ") to str"))
  end.

(** [s.startswith(p)] and [s[n:]]. *)
Definition startswith (s p : string) : bool := String.prefix p s.

Fixpoint slice_from (n : nat) (s : string) : string :=
  match n, s with
  | O, _ => s
  | S _, EmptyString => EmptyString
  | S n', String _ s' => slice_from n' s'
  end.

End Py.

(** ** A reference [json.loads]

    The decoder of CPython's [json] module, for running [chat] on concrete
    streams: optional white space, one value, optional white space.  Objects
    become dicts (a repeated key keeps its last value), arrays lists, numbers
    without fraction and exponent ints and the others floats; [NaN],
    [Infinity] and [-Infinity] are accepted, control characters inside a
    string are not.  A str holds the UTF-8 encoding of its characters.
    CPython 3.11 counts every array and object it enters against the
    recursion limit and raises [RecursionError] beyond it, and raises
    [ValueError] on an int of more than 4300 digits; neither is a
    [JSONDecodeError].  The theorems about [chat] hold for any [json_loads];
    this one instantiates them. *)

Module Json.
Import Py.

Definition dquote_char : ascii := Ascii false true false false false true false false.

(** The [JSONDecodeError] raised on a text that is not JSON.  Its message
    tells where and why the text was rejected; it is left empty here, since
    the handler in [chat] never reads it. *)
Definition decode_error : exn := mkExn JSONDecodeError "".

(** The [RecursionError] of an array or object nested too deep, and the
    [ValueError] of an int with too many digits. *)
Definition recursion_error (what : string) : exn :=
  mkExn OtherException
    ("maximum recursion depth exceeded while decoding a JSON " ++ what
       ++ " from a unicode string").

Definition max_str_digits : nat := 4300.

Definition digits_error (digits : nat) : exn :=
  mkExn OtherException
    ("Exceeds the limit (4300 digits) for integer string conversion: value has "
       ++ NilZero.string_of_uint (Nat.to_uint digits)
       ++ " digits; use sys.set_int_max_str_digits() to increase the limit").

Definition code (c : ascii) : N := N_of_ascii c.

Definition is_whitespace (c : ascii) : bool :=
  match code c with
  | 32%N | 9%N | 10%N | 13%N => true
  | _ => false
  end.

Fixpoint skip_whitespace (s : string) : string :=
  match s with
  | String c s' => if is_whitespace c then skip_whitespace s' else s
  | EmptyString => s
  end.

Definition is_digit (c : ascii) : bool :=
  (48 <=? code c)%N && (code c <=? 57)%N.

(** The longest run of digits at the front, and what follows it. *)
Fixpoint span_digits (s : string) : string * string :=
  match s with
  | String c s' =>
      if is_digit c
      then let (ds, r) := span_digits s' in (String c ds, r)
      else (EmptyString, s)
  | EmptyString => (EmptyString, s)
  end.

Fixpoint Z_of_digits (acc : Z) (ds : string) : Z :=
  match ds with
  | String c ds' => Z_of_digits (10 * acc + Z.of_N (code c - 48)) ds'
  | EmptyString => acc
  end.

(** An optional minus sign, then [0] or a digit other than [0] followed by
    digits: the sign, the digits, the rest. *)
Definition match_integer (s : string) : option (bool * string * string) :=
  let (negative, s1) :=
    match s with
    | String "-"%char s' => (true, s')
    | _ => (false, s)
    end in
  match s1 with
  | String c s2 =>
      if Ascii.eqb c "0" then Some (negative, "0", s2)
      else if is_digit c
      then let (ds, r) := span_digits s2 in Some (negative, String c ds, r)
      else None
  | EmptyString => None
  end.

(** An optional fraction: a dot and at least one digit. *)
Definition match_fraction (s : string) : string * string :=
  match s with
  | String "."%char s' =>
      match span_digits s' with
      | (EmptyString, _) => (EmptyString, s)
      | (ds, r) => (String "." ds, r)
      end
  | _ => (EmptyString, s)
  end.

(** An optional exponent: [e] or [E], an optional sign, at least one digit. *)
Definition match_exponent (s : string) : string * string :=
  match s with
  | String c s' =>
      if Ascii.eqb c "e" || Ascii.eqb c "E" then
        let (sign, s2) :=
          match s' with
          | String "-"%char s2 => ("-", s2)
          | String "+"%char s2 => ("+", s2)
          | _ => (EmptyString, s')
          end in
        match span_digits s2 with
        | (EmptyString, _) => (EmptyString, s)
        | (ds, r) => (String c (sign ++ ds), r)
        end
      else (EmptyString, s)
  | EmptyString => (EmptyString, s)
  end.

(** A number at the front of [s]: an int, unless it has too many digits, or
    a float. *)
Definition match_number (s : string) : option (outcome (value * string)) :=
  match match_integer s with
  | None => None
  | Some (negative, ds, r) =>
      let (frac, r1) := match_fraction r in
      let (exp, r2) := match_exponent r1 in
      match frac, exp with
      | EmptyString, EmptyString =>
          if Nat.ltb max_str_digits (String.length ds)
          then Some (Raise (digits_error (String.length ds)))
          else
            Some (Return
                    (VInt (if negative then - Z_of_digits 0 ds
                           else Z_of_digits 0 ds), r2))
      | _, _ =>
          Some (Return
                  (VFloat ((if negative then "-" else "") ++ ds ++ frac ++ exp),
                   r2))
      end
  end.

Definition hex_digit (c : ascii) : option N :=
  let n := code c in
  if (48 <=? n)%N && (n <=? 57)%N then Some (n - 48)%N
  else if (97 <=? n)%N && (n <=? 102)%N then Some (n - 87)%N
  else if (65 <=? n)%N && (n <=? 70)%N then Some (n - 55)%N
  else None.

(** Four hexadecimal digits. *)
Definition hex4 (s : string) : option (N * string) :=
  match s with
  | String a (String b (String c (String d r))) =>
      match hex_digit a, hex_digit b, hex_digit c, hex_digit d with
      | Some x, Some y, Some z, Some t =>
          Some (((x * 16 + y) * 16 + z) * 16 + t, r)%N
      | _, _, _, _ => None
      end
  | _ => None
  end.

Definition byte (n : N) : string := String (ascii_of_N n) EmptyString.

Definition utf8_encode (cp : N) : string :=
  if (cp <? 128)%N then byte cp
  else if (cp <? 2048)%N then
    byte (192 + cp / 64) ++ byte (128 + cp mod 64)
  else if (cp <? 65536)%N then
    byte (224 + cp / 4096) ++ byte (128 + (cp / 64) mod 64)
      ++ byte (128 + cp mod 64)
  else
    byte (240 + cp / 262144) ++ byte (128 + (cp / 4096) mod 64)
      ++ byte (128 + (cp / 64) mod 64) ++ byte (128 + cp mod 64).

Definition is_high_surrogate (cp : N) : bool := (55296 <=? cp)%N && (cp <=? 56319)%N.
Definition is_low_surrogate (cp : N) : bool := (56320 <=? cp)%N && (cp <=? 57343)%N.

(** The character a one-letter escape stands for. *)
Definition simple_escape (c : ascii) : option ascii :=
  if Ascii.eqb c dquote_char then Some dquote_char
  else if Ascii.eqb c "\" then Some "\"%char
  else if Ascii.eqb c "/" then Some "/"%char
  else if Ascii.eqb c "b" then Some (ascii_of_N 8)
  else if Ascii.eqb c "f" then Some (ascii_of_N 12)
  else if Ascii.eqb c "n" then Some (ascii_of_N 10)
  else if Ascii.eqb c "r" then Some (ascii_of_N 13)
  else if Ascii.eqb c "t" then Some (ascii_of_N 9)
  else None.

Definition prepend (front : string) (r : option (string * string))
  : option (string * string) :=
  match r with
  | Some (body, rest) => Some (front ++ body, rest)
  | None => None
  end.

(** The text after an opening quote: the string it holds and what follows
    the closing quote. *)
Fixpoint scanstring (fuel : nat) (s : string) : option (string * string) :=
  match fuel with
  | O => None
  | S fuel =>
      match s with
      | EmptyString => None
      | String c rest =>
          if Ascii.eqb c dquote_char then Some (EmptyString, rest)
          else if Ascii.eqb c "\" then
            match rest with
            | EmptyString => None
            | String e rest' =>
                if Ascii.eqb e "u" then
                  match hex4 rest' with
                  | None => None
                  | Some (cp, r1) =>
                      if is_high_surrogate cp then
                        match r1 with
                        | String "\"%char (String "u"%char r2) =>
                            match hex4 r2 with
                            | None => None
                            | Some (cp2, r3) =>
                                if is_low_surrogate cp2 then
                                  prepend
                                    (utf8_encode
                                       (65536 + (cp - 55296) * 1024
                                        + (cp2 - 56320))%N)
                                    (scanstring fuel r3)
                                else prepend (utf8_encode cp) (scanstring fuel r1)
                            end
                        | _ => prepend (utf8_encode cp) (scanstring fuel r1)
                        end
                      else prepend (utf8_encode cp) (scanstring fuel r1)
                  end
                else
                  match simple_escape e with
                  | Some ch => prepend (String ch EmptyString) (scanstring fuel rest')
                  | None => None
                  end
            end
          else if (code c <=? 31)%N then None
          else prepend (String c EmptyString) (scanstring fuel rest)
      end
  end.

(** A word of the grammar at the front of [s]. *)
Definition keyword (word : string) (v : value) (s : string)
  : option (value * string) :=
  if String.prefix word s then Some (v, slice_from (String.length word) s)
  else None.

Definition first_of {A} (x y : option A) : option A :=
  match x with Some _ => x | None => y end.

(** One value at the front of [s], and the items of an array and of an
    object after the opening bracket.  [depth] is how many arrays and
    objects may still be entered. *)
Fixpoint scan_once (fuel depth : nat) (s : string) {struct fuel}
  : outcome (value * string) :=
  match fuel with
  | O => Raise decode_error
  | S fuel =>
      match s with
      | EmptyString => Raise decode_error
      | String c rest =>
          if Ascii.eqb c dquote_char then
            match scanstring (String.length rest) rest with
            | Some (str, r) => Return (VStr str, r)
            | None => Raise decode_error
            end
          else if Ascii.eqb c "{" then
            match depth with
            | O => Raise (recursion_error "object")
            | S depth' =>
                match skip_whitespace rest with
                | String "}"%char r => Return (VDict [], r)
                | s1 => object_items fuel depth' s1 []
                end
            end
          else if Ascii.eqb c "[" then
            match depth with
            | O => Raise (recursion_error "array")
            | S depth' =>
                match skip_whitespace rest with
                | String "]"%char r => Return (VList [], r)
                | s1 => array_items fuel depth' s1 []
                end
            end
          else
            match first_of (keyword "null" VNone s)
                    (first_of (keyword "true" (VBool true) s)
                       (keyword "false" (VBool false) s)) with
            | Some found => Return found
            | None =>
                match match_number s with
                | Some number => number
                | None =>
                    match first_of (keyword "NaN" (VFloat "NaN") s)
                            (first_of (keyword "Infinity" (VFloat "Infinity") s)
                               (keyword "-Infinity" (VFloat "-Infinity") s)) with
                    | Some found => Return found
                    | None => Raise decode_error
                    end
                end
            end
      end
  end
with array_items (fuel depth : nat) (s : string) (acc : list value)
  {struct fuel} : outcome (value * string) :=
  match fuel with
  | O => Raise decode_error
  | S fuel =>
      match scan_once fuel depth s with
      | Raise e => Raise e
      | Return (v, r) =>
          match skip_whitespace r with
          | String "]"%char r1 => Return (VList (acc ++ [v])%list, r1)
          | String ","%char r1 =>
              array_items fuel depth (skip_whitespace r1) (acc ++ [v])%list
          | _ => Raise decode_error
          end
      end
  end
with object_items (fuel depth : nat) (s : string) (acc : list (string * value))
  {struct fuel} : outcome (value * string) :=
  match fuel with
  | O => Raise decode_error
  | S fuel =>
      match s with
      | EmptyString => Raise decode_error
      | String c rest =>
          if Ascii.eqb c dquote_char then
            match scanstring (String.length rest) rest with
            | None => Raise decode_error
            | Some (key, r) =>
                match skip_whitespace r with
                | String ":"%char r1 =>
                    match scan_once fuel depth (skip_whitespace r1) with
                    | Raise e => Raise e
                    | Return (v, r2) =>
                        match skip_whitespace r2 with
                        | String "}"%char r3 =>
                            Return (VDict (dict_set key v acc), r3)
                        | String ","%char r3 =>
                            object_items fuel depth (skip_whitespace r3)
                                         (dict_set key v acc)
                        | _ => Raise decode_error
                        end
                    end
                | _ => Raise decode_error
                end
            end
          else Raise decode_error
      end
  end.

(** [json.loads(s)] when [depth] arrays and objects may be entered. *)
Definition loads_within (depth : nat) (s : string) : outcome value :=
  match scan_once (2 * String.length s + 2) depth (skip_whitespace s) with
  | Return (v, r) =>
      match skip_whitespace r with
      | EmptyString => Return v
      | String _ _ => Raise decode_error
      end
  | Raise e => Raise e
  end.

(** The depth left to [json.loads] in [chat]: of the recursion limit of 1000
    the interpreter keeps one level, and six frames are in use when [main],
    run as the script, has called [chat] and [chat] has called [json.loads]
    (the module, [main], [chat], [loads], [decode], [raw_decode]). *)
Definition nesting_in_chat : nat := 993.

(** [json.loads(s)], called from [chat]. *)
Definition loads (s : string) : outcome value := loads_within nesting_in_chat s.

(** A JSON text written with ['] for the double quote. *)
Fixpoint quoted (s : string) : string :=
  match s with
  | String c s' =>
      String (if Ascii.eqb c "'" then dquote_char else c) (quoted s')
  | EmptyString => EmptyString
  end.

End Json.

(** ** The chatbot object, the transport and the effects of a call *)

Module Chatbot.
Import Py.

(** A history entry, [{"role": ..., "content": ...}]. *)
Record message := mkMessage { role : string; content : string }.

(** The attributes [__init__] sets. *)
Record OpenAIChatbot := mkChatbot {
  api_key : string;
  api_url : string;
  model : string;
  messages : list message;
  system_message : string
}.

(** One call of [print]: the objects printed and the [end] text. *)
Inductive printed := Print (args : list value) (end_ : string).

(** What a method call can change: the object and standard output. *)
Record world := mkWorld { self : OpenAIChatbot; stdout : list printed }.

(** A line as [response.iter_lines()] yields it, a [bytes] object: either the
    UTF-8 encoding of a text, or bytes that [decode('utf-8')] rejects with
    the given message. *)
Inductive raw_line :=
| Utf8 (text : string)
| Undecodable (bytes : string) (message_ : string).

Definition raw_bytes (line : raw_line) : string :=
  match line with
  | Utf8 text => text
  | Undecodable bytes _ => bytes
  end.

(** [if line:] on bytes: false for the empty bytes only. *)
Definition truthy (line : raw_line) : bool :=
  match raw_bytes line with
  | EmptyString => false
  | String _ _ => true
  end.

(** [line.decode('utf-8')]. *)
Definition decode_utf8 (line : raw_line) : outcome string :=
  match line with
  | Utf8 text => Return text
  | Undecodable _ message_ => Raise (mkExn UnicodeDecodeError message_)
  end.

(** The body of a response as the iteration sees it: lines, until the body
    ends or the transport raises. *)
Inductive line_stream :=
| EndOfBody
| Broken (e : exn)
| Line (line : raw_line) (rest : line_stream).

(** The response object, by the two methods [chat] calls on it. *)
Record response := mkResponse {
  raise_for_status : outcome unit;
  iter_lines : line_stream
}.

(** The arguments of [requests.post]. *)
Record payload := mkPayload {
  payload_model : string;
  payload_max_tokens : Z;
  payload_stream : bool;
  payload_messages : list message
}.

Record request := mkRequest {
  url : string;
  headers : list (string * string);
  json : payload;
  timeout : Z;
  stream : bool
}.

(** *** The monad: state that survives an exception *)

Definition M (A : Type) : Type := world -> outcome A * world.

Definition ret {A} (a : A) : M A := fun w => (Return a, w).

Definition raise {A} (e : exn) : M A := fun w => (Raise e, w).

Definition bind {A B} (m : M A) (k : A -> M B) : M B :=
  fun w =>
    match m w with
    | (Return a, w') => k a w'
    | (Raise e, w') => (Raise e, w')
    end.

(** An expression without side effects. *)
Definition eval {A} (o : outcome A) : M A := fun w => (o, w).

(** [try: body except ... as e: handler e]. *)
Definition try_except {A} (body : M A) (handler : exn -> M A) : M A :=
  fun w =>
    match body w with
    | (Return a, w') => (Return a, w')
    | (Raise e, w') => handler e w'
    end.

Declare Scope py_scope.
Delimit Scope py_scope with py.
Notation "x <- m ;; k" := (bind m (fun x => k))
  (at level 61, m at next level, right associativity) : py_scope.
Notation "m ;; k" := (bind m (fun _ => k))
  (at level 61, right associativity) : py_scope.
Local Open Scope py_scope.

Definition get_self : M OpenAIChatbot := fun w => (Return (self w), w).

Definition set_messages (ms : list message) : M unit :=
  fun w =>
    let s := self w in
    (Return tt,
     mkWorld (mkChatbot (api_key s) (api_url s) (model s) ms (system_message s))
             (stdout w)).

(** [print(arg, ..., end=end_)]; a str is shown as it is.  The standard
    output is taken to accept what it is given: a str it cannot encode (one
    with a lone surrogate) makes the real [print] raise, so what is stated
    of printed text from the server is stated of ASCII text. *)
Definition print (args : list value) (end_ : string) : M unit :=
  fun w => (Return tt, mkWorld (self w) (stdout w ++ [Print args end_])%list).

(** [self.messages.append(m)]. *)
Definition messages_append (m : message) : M unit :=
  s <- get_self ;; set_messages (messages s ++ [m])%list.

(** [self.messages.pop()]: removes and returns the last entry; an empty list
    raises [IndexError]. *)
Definition messages_pop : M message :=
  s <- get_self ;;
  match rev (messages s) with
  | [] => raise (mkExn IndexError "pop from empty list")
  | m :: _ => set_messages (removelast (messages s)) ;; ret m
  end.

(** *** The methods *)

(** [__init__(api_key, model)]; [model] defaults to ["gpt-4o-mini"]. *)
Definition init (api_key model : string) : OpenAIChatbot :=
  mkChatbot api_key "https://api.openai.com/v1/chat/completions" model []
            "You are a helpful assistant.".

Definition default_model : string := "gpt-4o-mini".

Definition set_system_message (message_ : string) : M unit :=
  fun w =>
    let s := self w in
    (Return tt,
     mkWorld (mkChatbot (api_key s) (api_url s) (model s) (messages s) message_)
             (stdout w)).

Definition clear_conversation : M unit :=
  set_messages [] ;;
  print [VStr "Conversation cleared."] newline.

(** The list sent with a request: the system prompt, then the history. *)
Definition full_messages (s : OpenAIChatbot) : list message :=
  ([mkMessage "system" (system_message s)] ++ messages s)%list.

Definition build_request (s : OpenAIChatbot) : request :=
  mkRequest (api_url s)
            [("Authorization", "Bearer " ++ api_key s);
             ("Content-Type", "application/json");
             ("Accept", "text/event-stream")]
            (mkPayload (model s) 4096 true (full_messages s))
            30 true.

(** How an iteration of the [for] loop ends: with the next line, or [break]. *)
Inductive control := Next | Break.

(** A method call on the chatbot; a [chat] comes with the transport's answer
    to the request it posts. *)
Inductive operation :=
| Chat (requests_post : request -> outcome response) (user_input : string)
| ClearConversation
| SetSystemMessage (message_ : string).

Section Decoder.

(** [json.loads], of the standard library: the value a text denotes, or the
    exception it raises ([json.JSONDecodeError] on a text that is not
    JSON). *)
Variable json_loads : string -> outcome value.

(** The statements under [try:] in the loop, for the payload [data]. *)
Definition decode_event (assistant_message data : string) : M string :=
  event_data <- eval (json_loads data) ;;
  has_choices <- eval (contains "choices" event_data) ;;
  if has_choices then
    choices <- eval (getitem_str event_data "choices") ;;
    n <- eval (len choices) ;;
    if (n >? 0)%Z then
      choices <- eval (getitem_str event_data "choices") ;;
      first <- eval (getitem_0 choices) ;;
      delta <- eval (get first "delta" (VDict [])) ;;
      has_content <- eval (contains "content" delta) ;;
      if has_content then
        content_ <- eval (getitem_str delta "content") ;;
        print [content_] "" ;;
        eval (iadd_str assistant_message content_)
      else ret assistant_message
    else ret assistant_message
  else ret assistant_message.

(** One iteration of [for line in response.iter_lines()]: what the loop does
    next, and [assistant_message] after it. *)
Definition loop_body (assistant_message : string) (line : raw_line)
  : M (control * string) :=
  if truthy line then
    line <- eval (decode_utf8 line) ;;
    if startswith line "data: " then
      let data := slice_from 6 line in
      if String.eqb data "[DONE]" then ret (Break, assistant_message)
      else
        try_except
          (assistant_message <- decode_event assistant_message data ;;
           ret (Next, assistant_message))
          (fun e =>
             if is_JSONDecodeError e then ret (Next, assistant_message)
             else raise e)
    else ret (Next, assistant_message)
  else ret (Next, assistant_message).

(** The whole loop. *)
Fixpoint process_stream (lines : line_stream) (assistant_message : string)
  : M string :=
  match lines with
  | EndOfBody => ret assistant_message
  | Broken e => raise e
  | Line line rest =>
      step <- loop_body assistant_message line ;;
      match step with
      | (Break, assistant_message) => ret assistant_message
      | (Next, assistant_message) => process_stream rest assistant_message
      end
  end.

(** The statements under the outer [try:] of [chat]. *)
Definition exchange (requests_post : request -> outcome response) : M string :=
  s <- get_self ;;
  response <- eval (requests_post (build_request s)) ;;
  eval (raise_for_status response) ;;
  assistant_message <- process_stream (iter_lines response) "" ;;
  print [] newline ;;
  messages_append (mkMessage "assistant" assistant_message) ;;
  ret assistant_message.

(** The three [except] clauses of [chat], tried in order; an exception that
    is none of them leaves [chat]. *)
Definition except_clauses (e : exn) : M string :=
  if is_Timeout e then
    let error_msg := "Request timed out" in
    print [VStr ("Error: " ++ error_msg)] newline ;;
    messages_pop ;;
    ret error_msg
  else if is_RequestException e then
    let error_msg := "Network error: " ++ str_exn e in
    print [VStr ("Error: " ++ error_msg)] newline ;;
    messages_pop ;;
    ret error_msg
  else if is_Exception e then
    let error_msg := "Error: " ++ str_exn e in
    print [VStr ("Error: " ++ error_msg)] newline ;;
    messages_pop ;;
    ret error_msg
  else raise e.

Definition chat (requests_post : request -> outcome response)
  (user_input : string) : M string :=
  messages_append (mkMessage "user" user_input) ;;
  try_except (exchange requests_post) except_clauses.

(** The object and the output after a call, whether it returned or raised. *)
Definition perform (op : operation) (w : world) : world :=
  match op with
  | Chat requests_post user_input => snd (chat requests_post user_input w)
  | ClearConversation => snd (clear_conversation w)
  | SetSystemMessage message_ => snd (set_system_message message_ w)
  end.

Definition session (ops : list operation) (w : world) : world :=
  fold_left (fun w op => perform op w) ops w.

End Decoder.

(** *** Vocabulary of the statements *)

(** The world after more output. *)
Definition said (w : world) (out : list printed) : world :=
  mkWorld (self w) (stdout w ++ out)%list.

(** What the loop prints for a content fragment. *)
Definition fragment (s : string) : printed := Print [VStr s] "".

(** The fragments put together in the order given. *)
Definition joined (fragments : list string) : string :=
  fold_right String.append EmptyString fragments.

Definition is_system (m : message) : bool := String.eqb (role m) "system".

(** The entries of a message list whose role is ["system"]. *)
Definition system_entries (ms : list message) : list message :=
  filter is_system ms.

(** The world with one more history entry. *)
Definition with_message (m : message) (w : world) : world :=
  snd (messages_append m w).

(** The world once [chat] has recorded the user's turn. *)
Definition recorded (user_input : string) (w : world) : world :=
  with_message (mkMessage "user" user_input) w.

(** A new chatbot, nothing printed yet. *)
Definition start (api_key model : string) : world :=
  mkWorld (init api_key model) [].

(** A transport that answers every request with status 200 and the given
    body, and one that fails with the given exception. *)
Definition serve (body : line_stream) : request -> outcome response :=
  fun _ => Return (mkResponse (Return tt) body).

Definition refuse (e : exn) : request -> outcome response :=
  fun _ => Raise e.

(** A body of text lines that ends normally. *)
Fixpoint text_lines (texts : list string) : line_stream :=
  match texts with
  | [] => EndOfBody
  | t :: texts' => Line (Utf8 t) (text_lines texts')
  end.

(** *** The effects of the decoder, case by case *)

(** What the statements under the inner [try:] can do: nothing, print a str
    and append it, raise before printing, or print something that is not a
    str and raise [TypeError] on the append. *)
Inductive event_effect (acc : string) (w : world)
  : outcome string * world -> Prop :=
| NoFragment : event_effect acc w (Return acc, w)
| OneFragment (s : string) :
    event_effect acc w (Return (acc ++ s), said w [fragment s])
| RaisedBefore (e : exn) : event_effect acc w (Raise e, w)
| RaisedOnAppend (e : exn) (v : value) :
    is_JSONDecodeError e = false ->
    event_effect acc w (Raise e, said w [Print [v] ""]).

(** What one iteration can do.  Only output changes; [self] never does. *)
Inductive step_effect (acc : string) (w : world)
  : outcome (control * string) * world -> Prop :=
| StepSkip : step_effect acc w (Return (Next, acc), w)
| StepBreak : step_effect acc w (Return (Break, acc), w)
| StepFragment (s : string) :
    step_effect acc w (Return (Next, acc ++ s), said w [fragment s])
| StepRaise (e : exn) (out : list printed) :
    step_effect acc w (Raise e, said w out).

(** *** Streams and lines of the examples *)

(** The stream of the end-to-end scenario: ["A"], a blank line, ["B"], then
    the sentinel. *)
Definition scenario : line_stream :=
  text_lines
    [Json.quoted "data: {'choices':[{'delta':{'content':'A'}}]}";
     "";
     Json.quoted "data: {'choices':[{'delta':{'content':'B'}}]}";
     "data: [DONE]"].

(** The one byte [0xff], which starts no UTF-8 sequence, as a line. *)
Definition undecodable_line : raw_line :=
  Undecodable
    (String (Ascii true true true true true true true true) EmptyString)
    "'utf-8' codec can't decode byte 0xff in position 0: invalid start byte".

(** A text that is not JSON. *)
Definition not_json : string := "{not valid json}".

(** A conversation of one completed turn. *)
Definition after_one_turn : world :=
  mkWorld
    (mkChatbot "key" "https://api.openai.com/v1/chat/completions" default_model
               [mkMessage "user" "Hello"; mkMessage "assistant" "AB"]
               "You are a helpful assistant.")
    [].

(** The same conversation as the scenario leaves it, output included. *)
Definition after_scenario : world :=
  said after_one_turn [fragment "A"; fragment "B"; Print [] newline].

(** A new conversation after a turn whose stream carried no content. *)
Definition after_empty_reply : world :=
  said (with_message (mkMessage "assistant" "")
          (recorded "Hello" (start "key" default_model)))
       [Print [] newline].

(** *** The command loop of [main] *)

(** What [input] finds on standard input: lines as they are typed, an
    interrupt while it waits, and then the end of the input, where every
    call raises [EOFError]. *)
Inductive keyboard :=
| Typed (line : string) (rest : keyboard)
| CtrlC (rest : keyboard)
| EndOfInput.

(** The process while the loop runs: the chatbot and the output, what is
    left to read, and how many times [chat] has been called. *)
Record console := mkConsole {
  con_world : world;
  con_keyboard : keyboard;
  con_calls : nat
}.

Definition P (A : Type) : Type := console -> outcome A * console.

Definition con_ret {A} (a : A) : P A := fun c => (Return a, c).

Definition con_raise {A} (e : exn) : P A := fun c => (Raise e, c).

Definition con_bind {A B} (m : P A) (k : A -> P B) : P B :=
  fun c =>
    match m c with
    | (Return a, c') => k a c'
    | (Raise e, c') => (Raise e, c')
    end.

Definition con_try_except {A} (body : P A) (handler : exn -> P A) : P A :=
  fun c =>
    match body c with
    | (Return a, c') => (Return a, c')
    | (Raise e, c') => handler e c'
    end.

(** A method call or a [print] inside the loop. *)
Definition on_world {A} (m : M A) : P A :=
  fun c =>
    let (r, w) := m (con_world c) in
    (r, mkConsole w (con_keyboard c) (con_calls c)).

(** [input(prompt)]: the prompt is written, then a line is read. *)
Definition input (prompt : string) : P string :=
  fun c =>
    let shown := mkWorld (self (con_world c))
                         (stdout (con_world c) ++ [Print [VStr prompt] ""])%list in
    match con_keyboard c with
    | Typed line rest => (Return line, mkConsole shown rest (con_calls c))
    | CtrlC rest =>
        (Raise (mkExn KeyboardInterrupt ""), mkConsole shown rest (con_calls c))
    | EndOfInput =>
        (Raise (mkExn OtherException "EOF when reading a line"),
         mkConsole shown EndOfInput (con_calls c))
    end.

(** [isinstance(e, KeyboardInterrupt)]. *)
Definition is_KeyboardInterrupt (e : exn) : bool :=
  match exn_class_of e with KeyboardInterrupt => true | _ => false end.

(** [s * n]. *)
Fixpoint times (s : string) (n : nat) : string :=
  match n with
  | O => EmptyString
  | S n' => s ++ times s n'
  end.

(** What [main] prints when the key is missing, and its banner. *)
Definition missing_key_report : list printed :=
  [Print [VStr "Error: OPENAI_API_KEY not found in environment variables."] newline;
   Print [VStr "Please create a .env file with your API key:"] newline;
   Print [VStr "OPENAI_API_KEY=your-api-key-here"] newline].

Definition banner : list printed :=
  [Print [VStr (times "=" 50)] newline;
   Print [VStr "OpenAI Command Line Chatbot (SSE Streaming)"] newline;
   Print [VStr (times "=" 50)] newline;
   Print [VStr "Commands:"] newline;
   Print [VStr "  • Type 'quit' or 'exit' to end"] newline;
   Print [VStr "  • Type 'clear' to reset conversation"] newline;
   Print [VStr "  • Type 'system' to change system message"] newline;
   Print [VStr (times "=" 50)] newline].

(** Whether the [while] loop has ended, or is still running when the
    iterations counted out are used up. *)
Inductive progress := Ended | Running.

(** How [main] ends: [sys.exit(status)], a normal return, still in its loop,
    or an exception nothing caught. *)
Inductive main_end :=
| SystemExit (status : Z)
| Returned
| StillRunning
| Uncaught (e : exn).

Section CommandLoop.

Variable json_loads : string -> outcome value.

(** [str.lower], of the interpreter. *)
Variable lower : string -> string.

(** The transport's answer to the request of the n-th call of [chat]. *)
Variable network : nat -> request -> outcome response.

Declare Scope console_scope.
Notation "x <- m ;; k" := (con_bind m (fun x => k))
  (at level 61, m at next level, right associativity) : console_scope.
Notation "m ;; k" := (con_bind m (fun _ => k))
  (at level 61, right associativity) : console_scope.
Local Open Scope console_scope.

(** [chatbot.chat(user_input)] in the loop. *)
Definition chatbot_chat (user_input : string) : P string :=
  fun c =>
    let (r, w) := chat json_loads (network (con_calls c)) user_input
                       (con_world c) in
    (r, mkConsole w (con_keyboard c) (S (con_calls c))).

(** The statements under [try:] in the loop; [Break] for [break], [Next] for
    [continue] and for reaching the end. *)
Definition turn : P control :=
  user_input <- input (newline ++ "You: ") ;;
  if String.eqb (lower user_input) "quit" || String.eqb (lower user_input) "exit"
  then
    on_world (print [VStr "Goodbye!"] newline) ;;
    con_ret Break
  else if String.eqb (lower user_input) "clear" then
    on_world clear_conversation ;;
    con_ret Next
  else if String.eqb (lower user_input) "system" then
    new_system <- input "Enter new system message: " ;;
    on_world (set_system_message new_system) ;;
    on_world (print [VStr "System message updated."] newline) ;;
    con_ret Next
  else
    on_world (print [VStr (newline ++ "GPT: ")] "") ;;
    chatbot_chat user_input ;;
    con_ret Next.

(** The two [except] clauses of the loop. *)
Definition turn_except (e : exn) : P control :=
  if is_KeyboardInterrupt e then
    on_world (print [VStr (newline ++ "Interrupted. Goodbye!")] newline) ;;
    con_ret Break
  else if is_Exception e then
    on_world (print [VStr ("Unexpected error: " ++ str_exn e)] newline) ;;
    con_ret Next
  else con_raise e.

(** [while True:], for at most [fuel] iterations. *)
Fixpoint repl (fuel : nat) : P progress :=
  match fuel with
  | O => con_ret Running
  | S fuel' =>
      step <- con_try_except turn turn_except ;;
      match step with
      | Break => con_ret Ended
      | Next => repl fuel'
      end
  end.

(** [main()], given [os.getenv] and the keyboard: how it ends and everything
    it printed. *)
Definition main (getenv : string -> option string) (typed : keyboard)
  (fuel : nat) : main_end * list printed :=
  match getenv "OPENAI_API_KEY" with
  | None | Some EmptyString => (SystemExit 1, missing_key_report)
  | Some api_key =>
      let (r, c) := repl fuel
                      (mkConsole (mkWorld (init api_key default_model) banner)
                                 typed 0) in
      (match r with
       | Return Ended => Returned
       | Return Running => StillRunning
       | Raise e => Uncaught e
       end,
       stdout (con_world c))
  end.

End CommandLoop.

(** *** The script [sse_raw.py] *)

(** The body and the arguments of its [requests.post]. *)
Record raw_body := mkRawBody {
  raw_model : string;
  raw_max_tokens : Z;
  raw_temperature : value;
  raw_stream : bool;
  raw_messages : list message
}.

Record raw_request := mkRawRequest {
  raw_url : string;
  raw_headers : list (string * option string);
  raw_json : raw_body;
  raw_timeout : Z;
  raw_request_stream : bool
}.

Definition raw_build_request (getenv : string -> option string)
  (prompt : string) : raw_request :=
  mkRawRequest "https://api.anthropic.com/v1/messages"
    [("x-api-key", getenv "ANTHROPIC_API_KEY");
     ("Content-Type", Some "application/json");
     ("Accept", Some "text/event-stream");
     ("User-Agent", Some "SomeAIApp/1.0");
     ("anthropic-version", Some "2023-06-01")]
    (mkRawBody "claude-sonnet-4-20250514" 2048 (VFloat "0.7") true
               [mkMessage "user" prompt])
    30 true.

(** [print(line, '\n')]. *)
Definition raw_echo (line : string) : printed :=
  Print [VStr line; VStr newline] newline.

(** The loop of the script: every line that is not empty is decoded and
    printed. *)
Fixpoint raw_print_lines (lines : line_stream) (out : list printed)
  : outcome unit * list printed :=
  match lines with
  | EndOfBody => (Return tt, out)
  | Broken e => (Raise e, out)
  | Line line rest =>
      if truthy line then
        match decode_utf8 line with
        | Return text => raw_print_lines rest (out ++ [raw_echo text])%list
        | Raise e => (Raise e, out)
        end
      else raw_print_lines rest out
  end.

(** The statements under [try:]. *)
Definition raw_try (requests_post : raw_request -> outcome response)
  (request_ : raw_request) (out : list printed)
  : outcome unit * list printed :=
  match requests_post request_ with
  | Raise e => (Raise e, out)
  | Return response_ =>
      match raise_for_status response_ with
      | Raise e => (Raise e, out)
      | Return _ => raw_print_lines (iter_lines response_) out
      end
  end.

(** The script from [prompt = input("User: ")] on: what it printed, and the
    exception that ended it if one was not caught. *)
Definition sse_raw (getenv : string -> option string) (typed : keyboard)
  (requests_post : raw_request -> outcome response)
  : outcome unit * list printed :=
  let asked := [Print [VStr "User: "] ""] in
  match typed with
  | CtrlC _ => (Raise (mkExn KeyboardInterrupt ""), asked)
  | EndOfInput => (Raise (mkExn OtherException "EOF when reading a line"), asked)
  | Typed prompt _ =>
      match raw_try requests_post (raw_build_request getenv prompt) asked with
      | (Return _, out) => (Return tt, out)
      | (Raise e, out) =>
          if is_RequestException e then
            (Return tt,
             (out ++ [Print [VStr ("Request failed: " ++ str_exn e)] newline])%list)
          else (Raise e, out)
      end
  end.

(** *** Vocabulary of the further statements *)

(** A body that begins with the given lines. *)
Fixpoint lines_then (lines : list raw_line) (rest : line_stream) : line_stream :=
  match lines with
  | [] => rest
  | line :: lines' => Line line (lines_then lines' rest)
  end.

(** The history of completed turns: a user entry and the assistant's answer,
    turn after turn. *)
Fixpoint turns (pairs : list (string * string)) : list message :=
  match pairs with
  | [] => []
  | (asked, answered) :: pairs' =>
      mkMessage "user" asked :: mkMessage "assistant" answered :: turns pairs'
  end.

(** The line yields the fragment: wherever the loop stands, the iteration
    prints it, appends it to the message and goes on. *)
Definition yields (json_loads : string -> outcome value) (line : raw_line)
  (s : string) : Prop :=
  forall (acc : string) (w : world),
    loop_body json_loads acc line w
    = (Return (Next, acc ++ s), said w [fragment s]).

(** Every [chat] of the calls returned, none raised. *)
Fixpoint all_return (json_loads : string -> outcome value)
  (ops : list operation) (w : world) : Prop :=
  match ops with
  | [] => True
  | op :: ops' =>
      match op with
      | Chat requests_post user_input =>
          exists reply w',
            chat json_loads requests_post user_input w = (Return reply, w')
      | _ => True
      end /\ all_return json_loads ops' (perform json_loads op w)
  end.

(** [s.isascii()]: text that [print] can show on any standard output. *)
Fixpoint is_ascii (s : string) : bool :=
  match s with
  | EmptyString => true
  | String c s' => (N_of_ascii c <? 128)%N && is_ascii s'
  end.

(** The line is one of the commands of the loop. *)
Definition is_command (lower : string -> string) (line : string) : bool :=
  String.eqb (lower line) "quit" || String.eqb (lower line) "exit"
  || String.eqb (lower line) "clear" || String.eqb (lower line) "system".

(** [if line:] for a text line of the body. *)
Definition nonempty (text : string) : bool :=
  match text with
  | EmptyString => false
  | String _ _ => true
  end.

(** What the loop of [main] prints per iteration once the input has ended. *)
Fixpoint end_of_input_output (iterations : nat) : list printed :=
  match iterations with
  | O => []
  | S n =>
      Print [VStr (newline ++ "You: ")] ""
        :: Print [VStr "Unexpected error: EOF when reading a line"] newline
        :: end_of_input_output n
  end.

(** [str.lower] on ASCII text. *)
Definition ascii_lower_char (c : ascii) : ascii :=
  let n := N_of_ascii c in
  if (65 <=? n)%N && (n <=? 90)%N then ascii_of_N (n + 32) else c.

Fixpoint ascii_lower (s : string) : string :=
  match s with
  | EmptyString => EmptyString
  | String c s' => String (ascii_lower_char c) (ascii_lower s')
  end.

(** *** Events, bodies and environments of the further examples *)

(** Payloads: a content event, a delta that only names the role, a content
    that is [null], a number. *)
Definition hi_event : string :=
  Json.quoted "{'choices':[{'delta':{'content':'Hi'}}]}".

Definition role_event : string :=
  Json.quoted "{'choices':[{'delta':{'role':'assistant'}}]}".

Definition null_event : string :=
  Json.quoted "{'choices':[{'delta':{'content':null}}]}".

Definition content_event (s : string) : string :=
  Json.quoted "{'choices':[{'delta':{'content':'" ++ s ++ Json.quoted "'}}]}".

(** A thousand opening brackets: not JSON, and nested deeper than
    [json.loads] may go. *)
Definition deep_payload : string := times "[" 1000.

(** The two content lines of the scenario. *)
Definition ab_lines : list raw_line :=
  [Utf8 ("data: " ++ content_event "A"); Utf8 ("data: " ++ content_event "B")].

(** A read timeout in the middle of a body, and a server error. *)
Definition read_timeout : exn := mkExn Timeout "Read timed out.".

Definition server_error : exn :=
  mkExn RequestException "500 Server Error: Internal Server Error for url: https://api.openai.com/v1/chat/completions".

Definition interrupt : exn := mkExn KeyboardInterrupt "".

(** [SystemExit(1)], which is no [Exception] and no [KeyboardInterrupt]. *)
Definition system_exit : exn := mkExn OtherBaseException "1".

(** A transport that answers with the given status check and body. *)
Definition answer (status : outcome unit) (body : line_stream)
  : request -> outcome response :=
  fun _ => Return (mkResponse status body).

Definition raw_answer (status : outcome unit) (body : line_stream)
  : raw_request -> outcome response :=
  fun _ => Return (mkResponse status body).

(** An environment that holds the keys. *)
Definition with_key : string -> option string := fun _ => Some "key".

(** Three calls: a turn that succeeds, a new prompt, a turn that times out. *)
Definition three_calls : list operation :=
  [Chat (serve scenario) "Hello";
   SetSystemMessage "Be brief.";
   Chat (refuse read_timeout) "And now?"].

(** Raw lines of a body: an event line, a blank line, the sentinel, a line
    after it. *)
Definition raw_texts : list string :=
  ["event: ping"; ""; "data: [DONE]"; "data: more"].

(** ** Properties *)

Lemma said_nil (w : world) : said w [] = w.
Proof. destruct w; unfold said; simpl. now rewrite app_nil_r. Qed.

Lemma said_said (w : world) (a b : list printed) :
  said (said w a) b = said w (a ++ b)%list.
Proof. unfold said; simpl. now rewrite app_assoc. Qed.

Lemma prefix_append (p s : string) : String.prefix p (p ++ s) = true.
Proof.
  induction p as [|c p IH]; simpl.
  - now destruct s.
  - destruct (Ascii.ascii_dec c c); [exact IH | congruence].
Qed.

Lemma slice_from_append (p s : string) :
  slice_from (String.length p) (p ++ s) = s.
Proof. induction p as [|c p IH]; simpl; [reflexivity | exact IH]. Qed.

Lemma append_assoc (a b c : string) : (a ++ b) ++ c = a ++ (b ++ c).
Proof. induction a as [|x a IH]; simpl; [reflexivity | now rewrite IH]. Qed.

Lemma append_empty_r (a : string) : a ++ "" = a.
Proof. induction a as [|x a IH]; simpl; [reflexivity | now rewrite IH]. Qed.

Section Properties.

Variable json_loads : string -> outcome value.

Lemma decode_event_effect (acc data : string) (w : world) :
  event_effect acc w (decode_event json_loads acc data w).
Proof.
  unfold decode_event, bind, eval, ret, print.
  destruct (json_loads data) as [event_data|e]; [|constructor].
  destruct (contains "choices" event_data) as [[|]|e]; try constructor.
  destruct (getitem_str event_data "choices") as [choices|e]; [|constructor].
  destruct (len choices) as [n|e]; [|constructor].
  destruct (n >? 0)%Z; [|constructor].
  destruct (getitem_0 choices) as [first|e]; [|constructor].
  destruct (get first "delta" (VDict [])) as [delta|e]; [|constructor].
  destruct (contains "content" delta) as [[|]|e]; try constructor.
  destruct (getitem_str delta "content") as [c|e]; [|constructor].
  fold (said w [Print [c] ""]).
  destruct c; simpl;
    first [ apply OneFragment | now apply RaisedOnAppend ].
Qed.

Lemma loop_body_effect (acc : string) (line : raw_line) (w : world) :
  step_effect acc w (loop_body json_loads acc line w).
Proof.
  unfold loop_body.
  destruct (truthy line); [|constructor].
  unfold bind at 1, eval.
  destruct (decode_utf8 line) as [text|e];
    [|rewrite <- (said_nil w) at 2; constructor].
  destruct (startswith text "data: "); [|constructor].
  destruct (slice_from 6 text =? "[DONE]"); [constructor|].
  unfold try_except, bind, ret.
  destruct (decode_event_effect acc (slice_from 6 text) w) as [|s|e|e v He].
  - constructor.
  - constructor.
  - destruct (is_JSONDecodeError e); unfold raise.
    + constructor.
    + rewrite <- (said_nil w) at 2; constructor.
  - rewrite He. unfold raise. constructor.
Qed.

(** A loop that ends normally has printed a list of strs, one call of
    [print] each, and returns their concatenation after what it started
    with; the object is untouched. *)
Lemma process_stream_returns (lines : line_stream) :
  forall (acc : string) (w : world) (r : string) (w' : world),
    process_stream json_loads lines acc w = (Return r, w') ->
    exists fragments : list string,
      r = acc ++ joined fragments /\ w' = said w (map fragment fragments).
Proof.
  induction lines as [|e|line rest IH]; intros acc w r w' H; simpl in H.
  - injection H as <- <-. exists []. simpl.
    now rewrite append_empty_r, said_nil.
  - discriminate.
  - unfold bind in H.
    destruct (loop_body_effect acc line w) as [| |s|e out].
    + apply IH in H. exact H.
    + injection H as <- <-. exists []. simpl.
      now rewrite append_empty_r, said_nil.
    + apply IH in H. destruct H as (fragments & -> & ->).
      exists (s :: fragments). simpl.
      now rewrite append_assoc, said_said.
    + discriminate.
Qed.

(** A loop that raises leaves the object untouched as well. *)
Lemma process_stream_raises (lines : line_stream) :
  forall (acc : string) (w : world) (e : exn) (w' : world),
    process_stream json_loads lines acc w = (Raise e, w') ->
    self w' = self w.
Proof.
  induction lines as [|e0|line rest IH]; intros acc w e w' H; simpl in H.
  - discriminate.
  - now injection H as <- <-.
  - unfold bind in H.
    destruct (loop_body_effect acc line w) as [| |s|e1 out].
    + now apply IH in H.
    + discriminate.
    + apply IH in H. now rewrite H.
    + now injection H as <- <-.
Qed.

(** The exchange returns only after the loop ended normally; then the
    closing newline is printed and the assistant's turn stored. *)
Lemma exchange_returns (requests_post : request -> outcome response)
  (w : world) (reply : string) (w' : world) :
  exchange json_loads requests_post w = (Return reply, w') ->
  exists fragments : list string,
    reply = joined fragments /\
    w' = with_message (mkMessage "assistant" (joined fragments))
           (said w (map fragment fragments ++ [Print [] newline])%list).
Proof.
  unfold exchange, bind at 1, get_self. unfold bind at 1, eval.
  destruct (requests_post (build_request (self w))) as [resp|e]; [|discriminate].
  unfold bind at 1.
  destruct (raise_for_status resp) as [[]|e]; [|discriminate].
  unfold bind at 1.
  destruct (process_stream json_loads (iter_lines resp) "" w)
    as [[r|e] w1] eqn:Hloop; [|discriminate].
  apply process_stream_returns in Hloop. destruct Hloop as (fragments & -> & ->).
  simpl. intros H. injection H as <- <-.
  exists fragments. split; [reflexivity|].
  unfold with_message, said. simpl. now rewrite app_assoc.
Qed.

(** An exchange that raises has not touched the object. *)
Lemma exchange_raises (requests_post : request -> outcome response)
  (w : world) (e : exn) (w' : world) :
  exchange json_loads requests_post w = (Raise e, w') -> self w' = self w.
Proof.
  unfold exchange, bind at 1, get_self. unfold bind at 1, eval.
  destruct (requests_post (build_request (self w))) as [resp|e0];
    [|now intros H; injection H as <- <-].
  unfold bind at 1.
  destruct (raise_for_status resp) as [[]|e0];
    [|now intros H; injection H as <- <-].
  unfold bind at 1.
  destruct (process_stream json_loads (iter_lines resp) "" w)
    as [[r|e0] w1] eqn:Hloop.
  - simpl. discriminate.
  - intros H; injection H as <- <-.
    now apply process_stream_raises in Hloop.
Qed.

(** The exchange succeeds exactly when the request is answered, the status
    is good and the loop over the body returns. *)
Lemma exchange_succeeds_iff (requests_post : request -> outcome response)
  (w : world) :
  (exists reply w', exchange json_loads requests_post w = (Return reply, w')) <->
  (exists resp : response,
      requests_post (build_request (self w)) = Return resp /\
      raise_for_status resp = Return tt /\
      exists r w1,
        process_stream json_loads (iter_lines resp) "" w = (Return r, w1)).
Proof.
  unfold exchange, bind at 1, get_self. unfold bind at 1, eval.
  destruct (requests_post (build_request (self w))) as [resp|e] eqn:Hpost;
    [|split; [intros (? & ? & H) | intros (? & H & _)]; discriminate].
  unfold bind at 1.
  destruct (raise_for_status resp) as [[]|e] eqn:Hstatus;
    [|split; [intros (? & ? & H); discriminate
             |intros (? & H & H' & _); injection H as <-; congruence]].
  unfold bind at 1.
  destruct (process_stream json_loads (iter_lines resp) "" w)
    as [[r|e] w1] eqn:Hloop.
  - split.
    + intros _. exists resp.
      split; [reflexivity|]. split; [exact Hstatus|].
      exists r, w1. exact Hloop.
    + intros _. simpl. do 2 eexists. reflexivity.
  - split.
    + intros (? & ? & H). discriminate.
    + intros (? & H & _ & ? & ? & H'). injection H as <-. congruence.
Qed.

(** [pop] after [append]: the entry comes back and the list is as before. *)
Lemma messages_pop_last (w : world) (ms : list message) (m : message) :
  messages (self w) = (ms ++ [m])%list ->
  exists w', messages_pop w = (Return m, w') /\
             messages (self w') = ms /\
             system_message (self w') = system_message (self w) /\
             api_key (self w') = api_key (self w) /\
             api_url (self w') = api_url (self w) /\
             model (self w') = model (self w) /\
             stdout w' = stdout w.
Proof.
  intros H. unfold messages_pop, bind, get_self.
  rewrite H, rev_unit, removelast_last. simpl.
  eexists. split; [reflexivity|]. simpl. repeat split.
Qed.

Lemma chatbot_ext (a b : OpenAIChatbot) :
  api_key a = api_key b -> api_url a = api_url b -> model a = model b ->
  messages a = messages b -> system_message a = system_message b -> a = b.
Proof. destruct a, b; simpl; intros; subst; reflexivity. Qed.

(** Each [except] clause reports the error and pops the last entry. *)
Lemma except_clauses_pop (e : exn) (w : world) (ms : list message) (m : message) :
  is_Exception e = true ->
  messages (self w) = (ms ++ [m])%list ->
  exists (error_msg : string) (w' : world),
    except_clauses e w = (Return error_msg, w') /\
    messages (self w') = ms /\
    system_message (self w') = system_message (self w) /\
    api_key (self w') = api_key (self w) /\
    api_url (self w') = api_url (self w) /\
    model (self w') = model (self w).
Proof.
  intros He Hm. unfold except_clauses.
  destruct (is_Timeout e); [|destruct (is_RequestException e); [|rewrite He]];
    unfold bind at 1, print; cbv beta iota;
    match goal with
    | |- context [bind messages_pop _ ?W] =>
        destruct (messages_pop_last W ms m Hm)
          as (w' & Hp & H1 & H2 & H3 & H4 & H5 & _);
        unfold bind; rewrite Hp; unfold ret
    end;
    eexists; exists w'; (split; [reflexivity | repeat split; assumption]).
Qed.

(** C1.  When the exchange succeeds (the request was answered, the status
    was good and the loop over the body ended at [[DONE]] or at the end of
    the body), everything printed before the closing newline is a list of
    content fragments, one call of [print] each and in the order of arrival;
    the assistant entry appended to the history after the user's is their
    concatenation in that order, and [chat] returns that string. *)
Theorem chat_reply_is_joined_fragments
  (requests_post : request -> outcome response) (user_input : string)
  (w : world) (reply : string) (w' : world) :
  exchange json_loads requests_post (recorded user_input w) = (Return reply, w') ->
  exists fragments : list string,
    stdout w' = (stdout w ++ map fragment fragments ++ [Print [] newline])%list /\
    messages (self w')
    = (messages (self w)
         ++ [mkMessage "user" user_input;
             mkMessage "assistant" (joined fragments)])%list /\
    reply = joined fragments /\
    chat json_loads requests_post user_input w = (Return (joined fragments), w').
Proof.
  intros H.
  destruct (exchange_returns _ _ _ _ H) as (fragments & Hr & Hw).
  exists fragments. repeat split.
  - rewrite Hw. reflexivity.
  - rewrite Hw. simpl. now rewrite <- app_assoc.
  - exact Hr.
  - unfold chat, bind, try_except.
    change (messages_append (mkMessage "user" user_input) w)
      with (Return tt, recorded user_input w).
    cbv beta iota. rewrite H, Hr. reflexivity.
Qed.

(** C10.  When the exchange succeeds and the loop printed no fragment (the
    closing newline is all the output), the assistant entry appended to the
    history holds the empty string, and [chat] returns the empty string. *)
Theorem chat_without_fragments_stores_empty
  (requests_post : request -> outcome response) (user_input : string)
  (w : world) (reply : string) (w' : world) :
  exchange json_loads requests_post (recorded user_input w) = (Return reply, w') ->
  stdout w' = (stdout w ++ [Print [] newline])%list ->
  messages (self w')
  = (messages (self w)
       ++ [mkMessage "user" user_input; mkMessage "assistant" ""])%list /\
  chat json_loads requests_post user_input w = (Return "", w').
Proof.
  intros H Hout.
  destruct (exchange_returns _ _ _ _ H) as (fragments & Hr & Hw).
  assert (Hnone : fragments = []).
  { rewrite Hw in Hout. simpl in Hout.
    apply app_inv_head in Hout.
    destruct fragments as [|f fragments]; [reflexivity|].
    apply (f_equal (@List.length printed)) in Hout.
    simpl in Hout. rewrite length_app in Hout. simpl in Hout. lia. }
  subst fragments. simpl in *. split.
  - rewrite Hw. simpl. now rewrite <- app_assoc.
  - unfold chat, bind, try_except.
    change (messages_append (mkMessage "user" user_input) w)
      with (Return tt, recorded user_input w).
    cbv beta iota. rewrite H, Hr. reflexivity.
Qed.

(** C4.  When the exchange fails with an exception the [except] clauses of
    [chat] catch (a timeout, another request error, or any other
    [Exception]), [chat] returns an error text and the object is what it was
    before the user's turn was recorded: the history is the prior history,
    of the same length, whatever it held. *)
Theorem chat_failure_restores_history
  (requests_post : request -> outcome response) (user_input : string)
  (w : world) (e : exn) (w1 : world) :
  exchange json_loads requests_post (recorded user_input w) = (Raise e, w1) ->
  is_Exception e = true ->
  exists (error_msg : string) (w' : world),
    chat json_loads requests_post user_input w = (Return error_msg, w') /\
    self w' = self w /\
    List.length (messages (self w')) = List.length (messages (self w)).
Proof.
  intros H He.
  pose proof (exchange_raises _ _ _ _ H) as Hself.
  assert (Hm : messages (self w1)
               = (messages (self w) ++ [mkMessage "user" user_input])%list)
    by (rewrite Hself; reflexivity).
  destruct (except_clauses_pop e w1 _ _ He Hm)
    as (error_msg & w' & Hx & H1 & H2 & H3 & H4 & H5).
  assert (Hs : self w' = self w).
  { apply chatbot_ext; rewrite ?H1, ?H2, ?H3, ?H4, ?H5, ?Hself; reflexivity. }
  exists error_msg, w'. repeat split.
  - unfold chat, bind, try_except.
    change (messages_append (mkMessage "user" user_input) w)
      with (Return tt, recorded user_input w).
    cbv beta iota. rewrite H. exact Hx.
  - exact Hs.
  - now rewrite Hs.
Qed.

Lemma process_stream_next (line : raw_line) (rest : line_stream)
  (acc acc' : string) (w w' : world) :
  loop_body json_loads acc line w = (Return (Next, acc'), w') ->
  process_stream json_loads (Line line rest) acc w
  = process_stream json_loads rest acc' w'.
Proof. intros H. cbn [process_stream]. unfold bind. now rewrite H. Qed.

(** C6.  On the line [data: [DONE]] the iteration breaks without printing
    anything and without changing the accumulated message, and the loop
    returns at once: whatever lines follow, and however the body would have
    ended, nothing of them is read. *)
Theorem done_line_ends_the_stream
  (acc : string) (rest : line_stream) (w : world) :
  loop_body json_loads acc (Utf8 "data: [DONE]") w = (Return (Break, acc), w) /\
  process_stream json_loads (Line (Utf8 "data: [DONE]") rest) acc w
  = (Return acc, w).
Proof. split; reflexivity. Qed.

(** X17.  For a line [data: ] followed by a payload that is not the
    sentinel [[DONE]] and that [json.loads] rejects with [JSONDecodeError],
    the iteration prints nothing, leaves the accumulated message as it is,
    raises nothing, and the loop goes on with the next line. *)
Theorem invalid_json_payload_is_skipped
  (data : string) (e : exn) (acc : string) (rest : line_stream) (w : world) :
  data <> "[DONE]" ->
  json_loads data = Raise e ->
  is_JSONDecodeError e = true ->
  loop_body json_loads acc (Utf8 ("data: " ++ data)) w = (Return (Next, acc), w) /\
  process_stream json_loads (Line (Utf8 ("data: " ++ data)) rest) acc w
  = process_stream json_loads rest acc w.
Proof.
  intros Hdone Hloads He.
  assert (Hstep : loop_body json_loads acc (Utf8 ("data: " ++ data)) w
                  = (Return (Next, acc), w)).
  { unfold loop_body.
    change (truthy (Utf8 ("data: " ++ data))) with true.
    unfold bind at 1, eval, decode_utf8. cbv beta iota.
    unfold startswith. rewrite (prefix_append "data: " data).
    change 6 with (String.length "data: ").
    rewrite slice_from_append.
    apply String.eqb_neq in Hdone. rewrite Hdone.
    unfold try_except, decode_event, bind, eval. rewrite Hloads.
    cbv beta iota. rewrite He. reflexivity. }
  split; [exact Hstep | now apply process_stream_next].
Qed.

(** C8, amended.  For a blank line, and for a line of UTF-8 text that does
    not begin with [data: ], the iteration prints nothing, leaves the
    accumulated message as it is, raises nothing, and the loop goes on with
    the next line. *)
Theorem other_text_line_is_ignored
  (line : raw_line) (acc : string) (rest : line_stream) (w : world) :
  raw_bytes line = "" \/
  (exists text, line = Utf8 text /\ startswith text "data: " = false) ->
  loop_body json_loads acc line w = (Return (Next, acc), w) /\
  process_stream json_loads (Line line rest) acc w
  = process_stream json_loads rest acc w.
Proof.
  intros H.
  assert (Hstep : loop_body json_loads acc line w = (Return (Next, acc), w)).
  { unfold loop_body. destruct H as [Hblank | (text & -> & Hprefix)].
    - unfold truthy. rewrite Hblank. reflexivity.
    - destruct (truthy (Utf8 text)); [|reflexivity].
      unfold bind, eval, decode_utf8. rewrite Hprefix. reflexivity. }
  split; [exact Hstep | now apply process_stream_next].
Qed.

(** C9.  [clear_conversation] returns with an empty history and the system
    prompt, like every other attribute, as it was, whatever the state
    before; the message list built for a request is then the system entry
    alone, holding the current prompt, also when that prompt was set by
    [set_system_message] just before.  The list the next [chat] sends is
    that entry and the new user turn, nothing of the old history. *)
Theorem clear_conversation_keeps_system_prompt (w : world) :
  exists w' : world,
    clear_conversation w = (Return tt, w') /\
    messages (self w') = [] /\
    system_message (self w') = system_message (self w) /\
    api_key (self w') = api_key (self w) /\
    model (self w') = model (self w) /\
    full_messages (self w') = [mkMessage "system" (system_message (self w))] /\
    (forall prompt : string,
        full_messages
          (self (snd (clear_conversation (snd (set_system_message prompt w)))))
        = [mkMessage "system" prompt]) /\
    (forall user_input : string,
        payload_messages (json (build_request (self (recorded user_input w'))))
        = [mkMessage "system" (system_message (self w));
           mkMessage "user" user_input]).
Proof.
  eexists. split; [reflexivity|]. simpl. repeat split.
Qed.

(** What [chat] leaves in the object, however it ends: the prompt as it was,
    and the history with at most a user and an assistant entry more. *)
Lemma chat_history (requests_post : request -> outcome response)
  (user_input : string) (w : world) :
  let w' := snd (chat json_loads requests_post user_input w) in
  system_message (self w') = system_message (self w) /\
  exists extra : list message,
    messages (self w') = (messages (self w) ++ extra)%list /\
    system_entries extra = [].
Proof.
  unfold chat, bind, try_except.
  change (messages_append (mkMessage "user" user_input) w)
    with (Return tt, recorded user_input w).
  cbv beta iota.
  destruct (exchange json_loads requests_post (recorded user_input w))
    as [[reply|e] w1] eqn:H.
  - destruct (exchange_returns _ _ _ _ H) as (fragments & _ & ->).
    simpl. split; [reflexivity|].
    exists [mkMessage "user" user_input;
            mkMessage "assistant" (joined fragments)].
    split; [now rewrite <- app_assoc | reflexivity].
  - pose proof (exchange_raises _ _ _ _ H) as Hself.
    destruct (is_Exception e) eqn:He.
    + assert (Hm : messages (self w1)
                   = (messages (self w) ++ [mkMessage "user" user_input])%list)
        by (rewrite Hself; reflexivity).
      destruct (except_clauses_pop e w1 _ _ He Hm)
        as (error_msg & w' & -> & H1 & H2 & _).
      simpl. rewrite H1, H2, Hself. split; [reflexivity|].
      exists []. split; [now rewrite app_nil_r | reflexivity].
    + unfold except_clauses, is_Timeout, is_RequestException, is_Exception.
      unfold is_Exception in He.
      destruct (exn_class_of e); try discriminate;
        (simpl; rewrite Hself; split; [reflexivity|];
         exists [mkMessage "user" user_input]; split; reflexivity).
Qed.

Lemma system_entries_app (a b : list message) :
  system_entries (a ++ b) = (system_entries a ++ system_entries b)%list.
Proof. apply filter_app. Qed.

(** No call stores a system entry. *)
Lemma perform_keeps_history_clean (op : operation) (w : world) :
  system_entries (messages (self w)) = [] ->
  system_entries (messages (self (perform json_loads op w))) = [].
Proof.
  intros H. destruct op as [requests_post user_input| |prompt]; simpl.
  - destruct (chat_history requests_post user_input w)
      as (_ & extra & -> & Hextra).
    now rewrite system_entries_app, H, Hextra.
  - reflexivity.
  - exact H.
Qed.

Lemma session_keeps_history_clean (ops : list operation) :
  forall w : world,
    system_entries (messages (self w)) = [] ->
    system_entries (messages (self (session json_loads ops w))) = [].
Proof.
  induction ops as [|op ops IH]; intros w H; simpl.
  - exact H.
  - apply IH. now apply perform_keeps_history_clean.
Qed.

(** C2.  After any sequence of [chat], [clear_conversation] and
    [set_system_message] calls on a new chatbot, the history holds no system
    entry, and the list built for a request is the system entry with the
    current prompt followed by the history: exactly one system entry, in
    first place.  The same holds for the list [chat] sends, which it builds
    once the user's turn is recorded. *)
Theorem request_has_one_system_entry_first
  (api_key model : string) (ops : list operation) (user_input : string) :
  let s := self (session json_loads ops (start api_key model)) in
  let sent := payload_messages (json (build_request
                (self (recorded user_input
                         (session json_loads ops (start api_key model)))))) in
  system_entries (messages s) = [] /\
  full_messages s = mkMessage "system" (system_message s) :: messages s /\
  system_entries (full_messages s) = [mkMessage "system" (system_message s)] /\
  sent = mkMessage "system" (system_message s)
         :: (messages s ++ [mkMessage "user" user_input])%list /\
  system_entries sent = [mkMessage "system" (system_message s)].
Proof.
  intros s sent.
  assert (H : system_entries (messages s) = [])
    by (apply session_keeps_history_clean; reflexivity).
  subst sent. simpl. fold s.
  repeat split.
  - exact H.
  - unfold full_messages. simpl. unfold system_entries in *. simpl. now rewrite H.
  - unfold system_entries in *. simpl. f_equal.
    rewrite filter_app, H. reflexivity.
Qed.

(** C5.  Rolling back on an empty history is a safe, handled error.  Inside
    [chat] it does not happen: the rollback always finds the user's turn it
    is to remove, and no [Exception] leaves [chat].  Were the history empty
    when an [except] clause runs, [list.pop] raises [IndexError] after the
    error line is printed and leaves the object as it is, the history still
    empty; and where the loop of [main] calls [chat], its clause for
    [Exception] catches that error, prints it as an unexpected error and
    lets the loop go on. *)
Theorem rollback_on_empty_history_is_handled :
  (forall (requests_post : request -> outcome response) (user_input : string)
          (w : world) (e : exn) (w' : world),
      chat json_loads requests_post user_input w = (Raise e, w') ->
      is_Exception e = false) /\
  (forall (e : exn) (w : world) (typed : keyboard) (calls : nat),
      is_Exception e = true ->
      messages (self w) = [] ->
      exists error_msg : string,
        except_clauses e w
        = (Raise (mkExn IndexError "pop from empty list"),
           said w [Print [VStr ("Error: " ++ error_msg)] newline]) /\
        con_try_except
          (con_bind (on_world (except_clauses e)) (fun _ => con_ret Next))
          turn_except (mkConsole w typed calls)
        = (Return Next,
           mkConsole
             (said w [Print [VStr ("Error: " ++ error_msg)] newline;
                      Print [VStr "Unexpected error: pop from empty list"]
                            newline])
             typed calls)).
Proof.
  split.
  - intros requests_post user_input w e w'.
    unfold chat, bind, try_except.
    change (messages_append (mkMessage "user" user_input) w)
      with (Return tt, recorded user_input w).
    cbv beta iota.
    destruct (exchange json_loads requests_post (recorded user_input w))
      as [[reply|e0] w1] eqn:H; [discriminate|].
    destruct (is_Exception e0) eqn:He.
    + pose proof (exchange_raises _ _ _ _ H) as Hself.
      assert (Hm : messages (self w1)
                   = (messages (self w) ++ [mkMessage "user" user_input])%list)
        by (rewrite Hself; reflexivity).
      destruct (except_clauses_pop e0 w1 _ _ He Hm)
        as (error_msg & w2 & -> & _).
      discriminate.
    + unfold except_clauses, is_Timeout, is_RequestException, is_Exception.
      unfold is_Exception in He.
      destruct (exn_class_of e0) eqn:Hc; try discriminate;
        (unfold raise; intros Heq; injection Heq as <- <-;
         unfold is_Exception; now rewrite Hc).
  - intros e w typed calls He Hm.
    assert (Hraise : forall text,
              bind (print [VStr ("Error: " ++ text)] newline)
                   (fun _ => bind messages_pop (fun _ => ret text)) w
              = (Raise (mkExn IndexError "pop from empty list"),
                 said w [Print [VStr ("Error: " ++ text)] newline])).
    { intros text. unfold bind, print, messages_pop, bind, get_self. cbn.
      rewrite Hm. reflexivity. }
    assert (Hx : exists error_msg,
              except_clauses e w
              = (Raise (mkExn IndexError "pop from empty list"),
                 said w [Print [VStr ("Error: " ++ error_msg)] newline])).
    { unfold except_clauses.
      destruct (is_Timeout e); [|destruct (is_RequestException e); [|rewrite He]];
        eexists; apply Hraise. }
    destruct Hx as (error_msg & Hx). exists error_msg. split; [exact Hx|].
    unfold con_try_except, con_bind, on_world. cbn [con_world].
    rewrite Hx. cbn. unfold said. cbn. rewrite <- app_assoc. reflexivity.
Qed.

(** A payload that is JSON but neither dict, list nor str (a number, a
    boolean, [null]) makes the membership test of the decoder raise
    [TypeError], which the inner handler does not catch. *)
Lemma scalar_payload_raises
  (data : string) (v : value) (acc : string) (w : world) :
  data <> "[DONE]" ->
  json_loads data = Return v ->
  (forall d, v <> VDict d) -> (forall l, v <> VList l) -> (forall t, v <> VStr t) ->
  loop_body json_loads acc (Utf8 ("data: " ++ data)) w
  = (Raise (mkExn TypeError
              ("argument of type '" ++ type_name v ++ "' is not iterable")), w).
Proof.
  intros Hdone Hloads Hd Hl Hs.
  unfold loop_body.
  change (truthy (Utf8 ("data: " ++ data))) with true.
  unfold bind at 1, eval, decode_utf8. cbv beta iota.
  unfold startswith. rewrite (prefix_append "data: " data).
  change 6 with (String.length "data: ").
  rewrite slice_from_append.
  apply String.eqb_neq in Hdone. rewrite Hdone.
  unfold try_except, decode_event, bind, eval. rewrite Hloads.
  destruct v; try reflexivity.
  - now destruct (Hs s).
  - now destruct (Hl items).
  - now destruct (Hd items).
Qed.

(** An exception of [json.loads] that is no [JSONDecodeError] passes the
    inner handler and ends the iteration. *)
Lemma payload_error_leaves_the_loop
  (data : string) (e : exn) (acc : string) (w : world) :
  data <> "[DONE]" ->
  json_loads data = Raise e ->
  is_JSONDecodeError e = false ->
  loop_body json_loads acc (Utf8 ("data: " ++ data)) w = (Raise e, w).
Proof.
  intros Hdone Hloads He.
  unfold loop_body.
  change (truthy (Utf8 ("data: " ++ data))) with true.
  unfold bind at 1, eval, decode_utf8. cbv beta iota.
  unfold startswith. rewrite (prefix_append "data: " data).
  change 6 with (String.length "data: ").
  rewrite slice_from_append.
  apply String.eqb_neq in Hdone. rewrite Hdone.
  unfold try_except, decode_event, bind, eval. rewrite Hloads.
  cbv beta iota. rewrite He. reflexivity.
Qed.

End Properties.

(** ** The statements at concrete streams, with the reference [json.loads] *)

(** The scenario: ["A"] and ["B"] arrive, the reply is ["AB"]. *)
Lemma chat_reply_is_joined_fragments_witness :
  exchange Json.loads (serve scenario) (recorded "Hello" (start "key" default_model))
  = (Return "AB", after_scenario) /\
  exists fragments : list string,
    stdout after_scenario
    = (stdout (start "key" default_model)
         ++ map fragment fragments ++ [Print [] newline])%list /\
    messages (self after_scenario)
    = (messages (self (start "key" default_model))
         ++ [mkMessage "user" "Hello";
             mkMessage "assistant" (joined fragments)])%list /\
    "AB" = joined fragments /\
    chat Json.loads (serve scenario) "Hello" (start "key" default_model)
    = (Return (joined fragments), after_scenario).
Proof.
  assert (H : exchange Json.loads (serve scenario)
                (recorded "Hello" (start "key" default_model))
              = (Return "AB", after_scenario)) by (vm_compute; reflexivity).
  split; [exact H|].
  exact (chat_reply_is_joined_fragments Json.loads _ _ _ _ _ H).
Defined.

(** A stream of the sentinel alone: the reply is empty. *)
Lemma chat_without_fragments_stores_empty_witness :
  exchange Json.loads (serve (text_lines ["data: [DONE]"]))
    (recorded "Hello" (start "key" default_model))
  = (Return "", after_empty_reply) /\
  stdout after_empty_reply
  = (stdout (start "key" default_model) ++ [Print [] newline])%list /\
  messages (self after_empty_reply)
  = (messages (self (start "key" default_model))
       ++ [mkMessage "user" "Hello"; mkMessage "assistant" ""])%list /\
  chat Json.loads (serve (text_lines ["data: [DONE]"])) "Hello"
    (start "key" default_model)
  = (Return "", after_empty_reply).
Proof.
  assert (H : exchange Json.loads (serve (text_lines ["data: [DONE]"]))
                (recorded "Hello" (start "key" default_model))
              = (Return "", after_empty_reply))
    by (vm_compute; reflexivity).
  assert (Hout : stdout after_empty_reply
                 = (stdout (start "key" default_model)
                      ++ [Print [] newline])%list)
    by reflexivity.
  split; [exact H|]. split; [exact Hout|].
  exact (chat_without_fragments_stores_empty Json.loads _ _ _ _ _ H Hout).
Defined.

(** A timeout on the second turn: the first turn is all that remains. *)
Lemma chat_failure_restores_history_witness :
  exchange Json.loads (refuse (mkExn Timeout "read timed out"))
    (recorded "How are you?" after_one_turn)
  = (Raise (mkExn Timeout "read timed out"),
     recorded "How are you?" after_one_turn) /\
  is_Exception (mkExn Timeout "read timed out") = true /\
  exists (error_msg : string) (w' : world),
    chat Json.loads (refuse (mkExn Timeout "read timed out")) "How are you?"
      after_one_turn = (Return error_msg, w') /\
    self w' = self after_one_turn /\
    List.length (messages (self w')) = List.length (messages (self after_one_turn)).
Proof.
  split; [reflexivity|]. split; [reflexivity|].
  exact (chat_failure_restores_history Json.loads
           (refuse (mkExn Timeout "read timed out")) "How are you?"
           after_one_turn (mkExn Timeout "read timed out")
           (recorded "How are you?" after_one_turn) eq_refl eq_refl).
Defined.

(** The payload [{not valid json}] in front of the scenario. *)
Lemma invalid_json_payload_is_skipped_witness :
  not_json <> "[DONE]" /\
  Json.loads not_json = Raise Json.decode_error /\
  is_JSONDecodeError Json.decode_error = true /\
  loop_body Json.loads "A" (Utf8 ("data: " ++ not_json)) after_one_turn
  = (Return (Next, "A"), after_one_turn) /\
  process_stream Json.loads (Line (Utf8 ("data: " ++ not_json)) scenario) "A"
    after_one_turn
  = process_stream Json.loads scenario "A" after_one_turn.
Proof.
  assert (Hdone : not_json <> "[DONE]") by discriminate.
  assert (Hloads : Json.loads not_json = Raise Json.decode_error)
    by (vm_compute; reflexivity).
  split; [exact Hdone|]. split; [exact Hloads|]. split; [reflexivity|].
  exact (invalid_json_payload_is_skipped Json.loads not_json Json.decode_error
           "A" scenario after_one_turn Hdone Hloads eq_refl).
Defined.

(** A comment line of the SSE protocol in front of the scenario. *)
Lemma other_text_line_is_ignored_witness :
  (raw_bytes (Utf8 ": keep-alive") = "" \/
   exists text, Utf8 ": keep-alive" = Utf8 text /\ startswith text "data: " = false) /\
  loop_body Json.loads "A" (Utf8 ": keep-alive") after_one_turn
  = (Return (Next, "A"), after_one_turn) /\
  process_stream Json.loads (Line (Utf8 ": keep-alive") scenario) "A" after_one_turn
  = process_stream Json.loads scenario "A" after_one_turn.
Proof.
  assert (H : raw_bytes (Utf8 ": keep-alive") = "" \/
              exists text, Utf8 ": keep-alive" = Utf8 text /\
                           startswith text "data: " = false)
    by (right; exists ": keep-alive"; split; reflexivity).
  split; [exact H|].
  exact (other_text_line_is_ignored Json.loads (Utf8 ": keep-alive") "A"
           scenario after_one_turn H).
Defined.

(** An interrupt passes through [chat]; a timeout clause run on the empty
    history of a new chatbot ends in an [IndexError] that the loop handles. *)
Lemma rollback_on_empty_history_is_handled_witness :
  (chat Json.loads (refuse (mkExn KeyboardInterrupt "")) "Hello" after_one_turn
   = (Raise (mkExn KeyboardInterrupt ""), recorded "Hello" after_one_turn) /\
   is_Exception (mkExn KeyboardInterrupt "") = false) /\
  (is_Exception (mkExn Timeout "read timed out") = true /\
   messages (self (start "key" default_model)) = [] /\
   exists error_msg : string,
     except_clauses (mkExn Timeout "read timed out") (start "key" default_model)
     = (Raise (mkExn IndexError "pop from empty list"),
        said (start "key" default_model)
             [Print [VStr ("Error: " ++ error_msg)] newline]) /\
     con_try_except
       (con_bind (on_world (except_clauses (mkExn Timeout "read timed out")))
                 (fun _ => con_ret Next))
       turn_except (mkConsole (start "key" default_model) EndOfInput 1)
     = (Return Next,
        mkConsole
          (said (start "key" default_model)
                [Print [VStr ("Error: " ++ error_msg)] newline;
                 Print [VStr "Unexpected error: pop from empty list"] newline])
          EndOfInput 1)).
Proof.
  assert (H : chat Json.loads (refuse (mkExn KeyboardInterrupt "")) "Hello"
                after_one_turn
              = (Raise (mkExn KeyboardInterrupt ""),
                 recorded "Hello" after_one_turn)) by reflexivity.
  split.
  - split; [exact H|].
    exact (proj1 (rollback_on_empty_history_is_handled Json.loads) _ _ _ _ _ H).
  - split; [reflexivity|]. split; [reflexivity|].
    exact (proj2 (rollback_on_empty_history_is_handled Json.loads)
             (mkExn Timeout "read timed out") (start "key" default_model)
             EndOfInput 1 eq_refl eq_refl).
Defined.

(** Opening brackets beyond the depth the interpreter has left are rejected
    with [RecursionError], whatever that depth is. *)
Lemma times_add (s : string) (n m : nat) :
  times s (n + m) = times s n ++ times s m.
Proof.
  induction n as [|n IH]; [reflexivity|].
  cbn [Nat.add times]. rewrite IH. symmetry. apply append_assoc.
Qed.

Lemma length_times_bracket (n : nat) : String.length (times "[" n) = n.
Proof. induction n as [|n IH]; [reflexivity|]. cbn. now rewrite IH. Qed.

Lemma scan_once_too_deep (depth : nat) :
  forall (fuel : nat) (rest : string),
    2 * depth < fuel ->
    Json.scan_once fuel depth (times "[" (S depth) ++ rest)
    = Raise (Json.recursion_error "array").
Proof.
  induction depth as [|d IH]; intros fuel rest Hfuel.
  - destruct fuel as [|f]; [lia|]. reflexivity.
  - destruct fuel as [|f]; [lia|].
    destruct f as [|f']; [lia|].
    change (times "[" (S (S d)) ++ rest)
      with (String "["%char (String "["%char (times "[" d ++ rest))).
    cbn [Json.scan_once].
    change (Ascii.eqb "[" Json.dquote_char) with false.
    change (Ascii.eqb "[" "{") with false.
    change (Ascii.eqb "[" "[") with true.
    cbv beta iota.
    change (Json.skip_whitespace (String "["%char (times "[" d ++ rest)))
      with (String "["%char (times "[" d ++ rest)).
    cbv beta iota.
    cbn [Json.array_items].
    change (String "["%char (times "[" d ++ rest))
      with (times "[" (S d) ++ rest).
    rewrite IH by lia. reflexivity.
Qed.

Lemma loads_too_deep (depth n : nat) :
  depth < n ->
  Json.loads_within depth (times "[" n) = Raise (Json.recursion_error "array").
Proof.
  intros Hn. unfold Json.loads_within.
  replace n with (S depth + (n - S depth)) at 2 by lia.
  rewrite times_add.
  assert (Hskip : forall s, Json.skip_whitespace (times "[" (S depth) ++ s)
                            = times "[" (S depth) ++ s) by reflexivity.
  rewrite Hskip. rewrite length_times_bracket.
  rewrite scan_once_too_deep by lia. reflexivity.
Qed.

(** C7 does not hold of the code: a thousand opening brackets are not JSON,
    and [json.loads] rejects them with [RecursionError], not with
    [JSONDecodeError]; the handler that skips malformed JSON does not catch
    it, the exchange is aborted, [chat] returns the error text instead of
    the reply ["AB"] that the rest of the stream carries, and the user's
    turn is taken back. *)
Theorem chat_aborts_on_deeply_nested_payload :
  Json.loads deep_payload = Raise (Json.recursion_error "array") /\
  is_JSONDecodeError (Json.recursion_error "array") = false /\
  loop_body Json.loads "" (Utf8 ("data: " ++ deep_payload))
    (start "key" default_model)
  = (Raise (Json.recursion_error "array"), start "key" default_model) /\
  chat Json.loads (serve (Line (Utf8 ("data: " ++ deep_payload)) scenario))
    "Hello" (start "key" default_model)
  = (Return "Error: maximum recursion depth exceeded while decoding a JSON array from a unicode string",
     said (start "key" default_model)
          [Print [VStr "Error: Error: maximum recursion depth exceeded while decoding a JSON array from a unicode string"]
                 newline]).
Proof. repeat split; vm_compute; reflexivity. Qed.

(** C8, as stated, fails: the line of the single byte [0xff] does not begin
    with [data: ], yet decoding it raises [UnicodeDecodeError]; the exchange
    ends there with an error text, the lines after it unread and the user's
    turn taken back. *)
Lemma undecodable_line_is_not_ignored :
  startswith (raw_bytes undecodable_line) "data: " = false /\
  loop_body Json.loads "" undecodable_line (start "key" default_model)
  = (Raise (mkExn UnicodeDecodeError
              "'utf-8' codec can't decode byte 0xff in position 0: invalid start byte"),
     start "key" default_model) /\
  chat Json.loads (serve (Line undecodable_line scenario)) "Hello"
    (start "key" default_model)
  = (Return "Error: 'utf-8' codec can't decode byte 0xff in position 0: invalid start byte",
     said (start "key" default_model)
          [Print [VStr "Error: Error: 'utf-8' codec can't decode byte 0xff in position 0: invalid start byte"]
                 newline]).
Proof. repeat split; vm_compute; reflexivity. Qed.

(** C3 does not hold of the code: the payload [5] is JSON, an int, and on
    its line the decoder raises [TypeError]; the exchange is aborted, [chat]
    returns the error text instead of the reply ["AB"] that the rest of the
    stream carries, and the user's turn is taken back. *)
Theorem chat_aborts_on_json_number :
  Json.loads "5" = Return (VInt 5) /\
  loop_body Json.loads "" (Utf8 "data: 5") (start "key" default_model)
  = (Raise (mkExn TypeError "argument of type 'int' is not iterable"),
     start "key" default_model) /\
  chat Json.loads (serve (Line (Utf8 "data: 5") scenario)) "Hello"
    (start "key" default_model)
  = (Return "Error: argument of type 'int' is not iterable",
     said (start "key" default_model)
          [Print [VStr "Error: Error: argument of type 'int' is not iterable"]
                 newline]).
Proof. repeat split; vm_compute; reflexivity. Qed.

(** The same defect on an event of the streamed shape whose content is
    [null]: the value is printed, appending it to the message raises
    [TypeError], and the turn is lost although ["A"] had arrived. *)
Example chat_aborts_on_null_content :
  chat Json.loads
    (serve (text_lines
              [Json.quoted "data: {'choices':[{'delta':{'content':'A'}}]}";
               Json.quoted "data: {'choices':[{'delta':{'content':null}}]}";
               "data: [DONE]"]))
    "Hello" (start "key" default_model)
  = (Return ("Error: can only concatenate str (not " ++ dquote ++ "NoneType"
               ++ dquote ++ ") to str"),
     said (start "key" default_model)
          [fragment "A"; Print [VNone] "";
           Print [VStr ("Error: Error: can only concatenate str (not "
                          ++ dquote ++ "NoneType" ++ dquote ++ ") to str")]
                 newline]).
Proof. vm_compute; reflexivity. Qed.

(** The event of the streamed shape yields its content as one fragment. *)
Example content_event_yields_one_fragment :
  loop_body Json.loads ""
    (Utf8 (Json.quoted "data: {'choices':[{'delta':{'content':'Hi'}}]}"))
    (start "key" default_model)
  = (Return (Next, "Hi"), said (start "key" default_model) [fragment "Hi"]).
Proof. vm_compute; reflexivity. Qed.

(** ** Further properties of the decoder and of [chat] *)

Section MoreProperties.

Variable json_loads : string -> outcome value.

(** On a line [data: ] with a payload other than the sentinel, the iteration
    is the inner [try] statement on that payload. *)
Lemma loop_body_data (data acc : string) (w : world) :
  data <> "[DONE]" ->
  loop_body json_loads acc (Utf8 ("data: " ++ data)) w
  = try_except
      (bind (decode_event json_loads acc data) (fun m => ret (Next, m)))
      (fun e => if is_JSONDecodeError e then ret (Next, acc) else raise e) w.
Proof.
  intros Hdone. unfold loop_body.
  change (truthy (Utf8 ("data: " ++ data))) with true.
  unfold bind at 1, eval, decode_utf8. cbv beta iota.
  unfold startswith. rewrite (prefix_append "data: " data).
  change 6 with (String.length "data: ").
  rewrite slice_from_append.
  apply String.eqb_neq in Hdone. rewrite Hdone. reflexivity.
Qed.

(** The line of a content event yields the content. *)
Lemma content_line_yields
  (data : string) (event first delta : list (string * value))
  (more : list value) (s : string) :
  data <> "[DONE]" ->
  json_loads data = Return (VDict event) ->
  dict_lookup "choices" event = Some (VList (VDict first :: more)) ->
  dict_lookup "delta" first = Some (VDict delta) ->
  dict_lookup "content" delta = Some (VStr s) ->
  yields json_loads (Utf8 ("data: " ++ data)) s.
Proof.
  intros Hdone Hloads Hchoices Hdelta Hcontent acc w.
  rewrite (loop_body_data _ _ _ Hdone).
  unfold try_except, decode_event, bind, eval, contains, getitem_str, get.
  rewrite Hloads. cbv beta iota. rewrite Hchoices. cbn.
  rewrite Hdelta. cbn. rewrite Hcontent. reflexivity.
Qed.

(** X1.  An event of the streamed shape yields its content: when the payload
    is a dict whose ["choices"] is a list that begins with a dict, whose
    ["delta"] is a dict, whose ["content"] is a str of ASCII characters,
    which every standard output can show, the iteration prints that str as
    one fragment, appends it to the message and goes on. *)
Theorem content_event_yields_its_content
  (data : string) (event first delta : list (string * value))
  (more : list value) (s acc : string) (w : world) :
  data <> "[DONE]" ->
  json_loads data = Return (VDict event) ->
  dict_lookup "choices" event = Some (VList (VDict first :: more)) ->
  dict_lookup "delta" first = Some (VDict delta) ->
  dict_lookup "content" delta = Some (VStr s) ->
  is_ascii s = true ->
  loop_body json_loads acc (Utf8 ("data: " ++ data)) w
  = (Return (Next, acc ++ s), said w [fragment s]).
Proof.
  intros Hdone Hloads Hchoices Hdelta Hcontent _.
  exact (content_line_yields _ _ _ _ _ _ Hdone Hloads Hchoices Hdelta Hcontent
           acc w).
Qed.

(** X2.  An event of another shape yields nothing and is no error: a dict
    without ["choices"], or whose ["choices"] has length zero, or whose
    first choice is a dict whose ["delta"] (an empty dict when the key is
    absent) does not contain ["content"], leaves output and message as they
    are, and the loop goes on. *)
Theorem event_without_content_is_skipped
  (data : string) (event : list (string * value)) (acc : string) (w : world) :
  data <> "[DONE]" ->
  json_loads data = Return (VDict event) ->
  dict_lookup "choices" event = None \/
  (exists choices, dict_lookup "choices" event = Some choices /\
                   len choices = Return 0%Z) \/
  (exists first more delta,
      dict_lookup "choices" event = Some (VList (VDict first :: more)) /\
      get (VDict first) "delta" (VDict []) = Return delta /\
      contains "content" delta = Return false) ->
  loop_body json_loads acc (Utf8 ("data: " ++ data)) w = (Return (Next, acc), w).
Proof.
  intros Hdone Hloads H.
  rewrite (loop_body_data _ _ _ Hdone).
  unfold try_except, decode_event, bind, eval.
  rewrite Hloads. cbv beta iota.
  unfold contains at 1, getitem_str at 1 2.
  destruct H as [Hnone | [(choices & Hc & Hlen) | (first & more & delta & Hc & Hd & Hin)]].
  - rewrite Hnone. reflexivity.
  - rewrite Hc. cbv beta iota. rewrite Hlen. reflexivity.
  - rewrite Hc. cbn -[get contains]. rewrite Hd. cbv beta iota.
    rewrite Hin. reflexivity.
Qed.

(** X3.  A content that is not a str is printed and then ends the
    iteration with [TypeError]: the append to the message fails after the
    value has been shown, and the inner handler does not catch it. *)
Theorem content_that_is_no_str_raises
  (data : string) (event first delta : list (string * value))
  (more : list value) (v : value) (acc : string) (w : world) :
  data <> "[DONE]" ->
  json_loads data = Return (VDict event) ->
  dict_lookup "choices" event = Some (VList (VDict first :: more)) ->
  dict_lookup "delta" first = Some (VDict delta) ->
  dict_lookup "content" delta = Some v ->
  (forall s, v <> VStr s) ->
  loop_body json_loads acc (Utf8 ("data: " ++ data)) w
  = (Raise (mkExn TypeError
              ("can only concatenate str (not " ++ dquote ++ type_name v
                 ++ dquote ++ ") to str")),
     said w [Print [v] ""]).
Proof.
  intros Hdone Hloads Hchoices Hdelta Hcontent Hv.
  rewrite (loop_body_data _ _ _ Hdone).
  unfold try_except, decode_event, bind, eval, contains, getitem_str, get.
  rewrite Hloads. cbv beta iota. rewrite Hchoices. cbn.
  rewrite Hdelta. cbn. rewrite Hcontent. cbn.
  destruct v; try reflexivity.
  now destruct (Hv s).
Qed.

(** Lines that each yield a fragment contribute them in order; what follows
    is decoded as if the loop had started there. *)
Lemma process_stream_fragments (lines : list raw_line) (fragments : list string) :
  Forall2 (yields json_loads) lines fragments ->
  forall (rest : line_stream) (acc : string) (w : world),
    process_stream json_loads (lines_then lines rest) acc w
    = process_stream json_loads rest (acc ++ joined fragments)
        (said w (map fragment fragments)).
Proof.
  induction 1 as [|line s lines fragments Hline _ IH]; intros rest acc w;
    cbn [lines_then joined map fold_right].
  - now rewrite append_empty_r, said_nil.
  - rewrite (process_stream_next json_loads _ _ _ _ _ _ (Hline acc w)).
    rewrite IH, append_assoc, said_said. reflexivity.
Qed.

(** What an [except] clause does on a history that ends with the recorded
    turn: the text it returns, the line it prints, the entry it removes. *)
Lemma except_clauses_report (e : exn) (w : world) (ms : list message) (m : message) :
  is_Exception e = true ->
  messages (self w) = (ms ++ [m])%list ->
  exists (error_msg : string) (w' : world),
    except_clauses e w = (Return error_msg, w') /\
    stdout w' = (stdout w ++ [Print [VStr ("Error: " ++ error_msg)] newline])%list /\
    messages (self w') = ms /\
    system_message (self w') = system_message (self w) /\
    api_key (self w') = api_key (self w) /\
    api_url (self w') = api_url (self w) /\
    model (self w') = model (self w) /\
    (is_Timeout e = true -> error_msg = "Request timed out") /\
    (is_Timeout e = false -> is_RequestException e = true ->
     error_msg = "Network error: " ++ str_exn e) /\
    (is_RequestException e = false -> error_msg = "Error: " ++ str_exn e).
Proof.
  intros He Hm. unfold except_clauses.
  assert (Hr : is_Timeout e = true -> is_RequestException e = true)
    by (unfold is_Timeout, is_RequestException; now destruct (exn_class_of e)).
  assert (Hpop : forall text,
            exists w',
              bind (print [VStr ("Error: " ++ text)] newline)
                   (fun _ => bind messages_pop (fun _ => ret text)) w
              = (Return text, w') /\
              stdout w' = (stdout w ++ [Print [VStr ("Error: " ++ text)] newline])%list /\
              messages (self w') = ms /\
              system_message (self w') = system_message (self w) /\
              api_key (self w') = api_key (self w) /\
              api_url (self w') = api_url (self w) /\
              model (self w') = model (self w)).
  { intros text. unfold bind at 1, print. cbv beta iota.
    match goal with
    | |- context [bind messages_pop _ ?W] =>
        destruct (messages_pop_last W ms m Hm)
          as (w' & Hp & H1 & H2 & H3 & H4 & H5 & H6)
    end.
    exists w'. unfold bind. rewrite Hp. unfold ret.
    repeat split; assumption. }
  destruct (is_Timeout e) eqn:Ht.
  - destruct (Hpop "Request timed out") as (w' & Hx & H).
    exists "Request timed out", w'. split; [exact Hx|].
    rewrite (Hr eq_refl).
    repeat (split; [apply H|]). repeat split; intros; congruence.
  - destruct (is_RequestException e) eqn:Hq.
    + destruct (Hpop ("Network error: " ++ str_exn e)) as (w' & Hx & H).
      exists ("Network error: " ++ str_exn e), w'. split; [exact Hx|].
      repeat (split; [apply H|]). repeat split; intros; congruence.
    + rewrite He.
      destruct (Hpop ("Error: " ++ str_exn e)) as (w' & Hx & H).
      exists ("Error: " ++ str_exn e), w'. split; [exact Hx|].
      repeat (split; [apply H|]). repeat split; intros; congruence.
Qed.

(** What [chat] is once the outcome of the exchange is known. *)
Lemma chat_unfold (requests_post : request -> outcome response)
  (user_input : string) (w : world) :
  chat json_loads requests_post user_input w
  = match exchange json_loads requests_post (recorded user_input w) with
    | (Return reply, w') => (Return reply, w')
    | (Raise e, w') => except_clauses e w'
    end.
Proof. reflexivity. Qed.

(** The exchange when the request is answered with a good status: the loop,
    the closing newline, the assistant's entry. *)
Lemma exchange_unfold (requests_post : request -> outcome response)
  (w : world) (resp : response) :
  requests_post (build_request (self w)) = Return resp ->
  raise_for_status resp = Return tt ->
  exchange json_loads requests_post w
  = match process_stream json_loads (iter_lines resp) "" w with
    | (Return reply, w1) =>
        (Return reply,
         with_message (mkMessage "assistant" reply) (said w1 [Print [] newline]))
    | (Raise e, w1) => (Raise e, w1)
    end.
Proof.
  intros Hpost Hstatus.
  unfold exchange, bind at 1, get_self. unfold bind at 1, eval.
  rewrite Hpost. unfold bind at 1. rewrite Hstatus. unfold bind at 1.
  destruct (process_stream json_loads (iter_lines resp) "" w) as [[r|e] w1];
    reflexivity.
Qed.

(** X4.  When every line of the body yields a fragment and the body then
    ends, or goes on with the sentinel and anything after it, [chat] prints
    the fragments in that order and the closing newline, stores the user's
    turn and the concatenation of the fragments as the assistant's, and
    returns the concatenation. *)
Theorem chat_returns_the_fragments_in_order
  (requests_post : request -> outcome response) (user_input : string)
  (w : world) (resp : response) (lines : list raw_line)
  (fragments : list string) (ending : line_stream) :
  requests_post (build_request (self (recorded user_input w))) = Return resp ->
  raise_for_status resp = Return tt ->
  iter_lines resp = lines_then lines ending ->
  ending = EndOfBody \/
  (exists after, ending = Line (Utf8 "data: [DONE]") after) ->
  Forall2 (yields json_loads) lines fragments ->
  exists w' : world,
    chat json_loads requests_post user_input w
    = (Return (joined fragments), w') /\
    stdout w' = (stdout w ++ map fragment fragments ++ [Print [] newline])%list /\
    messages (self w')
    = (messages (self w)
         ++ [mkMessage "user" user_input;
             mkMessage "assistant" (joined fragments)])%list.
Proof.
  intros Hpost Hstatus Hbody Hend Hlines.
  rewrite chat_unfold, (exchange_unfold _ _ _ Hpost Hstatus), Hbody.
  rewrite (process_stream_fragments _ _ Hlines).
  assert (Hrest : process_stream json_loads ending (joined fragments)
                    (said (recorded user_input w) (map fragment fragments))
                  = (Return (joined fragments),
                     said (recorded user_input w) (map fragment fragments))).
  { destruct Hend as [-> | (after & ->)]; reflexivity. }
  change ("" ++ joined fragments) with (joined fragments).
  rewrite Hrest. eexists. split; [reflexivity|]. split.
  - simpl. now rewrite <- app_assoc.
  - simpl. now rewrite <- app_assoc.
Qed.

(** X5.  When the body breaks off with an exception after lines that each
    yielded a fragment, the fragments stay printed, the error line follows
    them, [chat] returns the error text, and the object is as it was before
    the call: nothing of the partial reply is stored. *)
Theorem chat_drops_a_partial_reply
  (requests_post : request -> outcome response) (user_input : string)
  (w : world) (resp : response) (lines : list raw_line)
  (fragments : list string) (e : exn) :
  requests_post (build_request (self (recorded user_input w))) = Return resp ->
  raise_for_status resp = Return tt ->
  iter_lines resp = lines_then lines (Broken e) ->
  Forall2 (yields json_loads) lines fragments ->
  is_Exception e = true ->
  exists (error_msg : string) (w' : world),
    chat json_loads requests_post user_input w = (Return error_msg, w') /\
    stdout w'
    = (stdout w ++ map fragment fragments
         ++ [Print [VStr ("Error: " ++ error_msg)] newline])%list /\
    self w' = self w.
Proof.
  intros Hpost Hstatus Hbody Hlines He.
  rewrite chat_unfold, (exchange_unfold _ _ _ Hpost Hstatus), Hbody.
  rewrite (process_stream_fragments _ _ Hlines). cbn [process_stream].
  unfold raise.
  destruct (except_clauses_report e
              (said (recorded user_input w) (map fragment fragments))
              (messages (self w)) (mkMessage "user" user_input) He eq_refl)
    as (error_msg & w' & Hx & Hout & H1 & H2 & H3 & H4 & H5 & _).
  exists error_msg, w'. split; [exact Hx|]. split.
  - rewrite Hout. simpl. now rewrite <- app_assoc.
  - apply chatbot_ext; rewrite ?H1, ?H2, ?H3, ?H4, ?H5; reflexivity.
Qed.

(** X6.  The text of a failure: for a timeout [chat] returns
    ["Request timed out"], whatever the exception says; for another request
    error ["Network error: "] and the exception's text; for any other
    [Exception] ["Error: "] and its text.  The line printed is ["Error: "]
    followed by the returned text, after whatever the exchange had printed. *)
Theorem chat_reports_the_failure
  (requests_post : request -> outcome response) (user_input : string)
  (w : world) (e : exn) (w1 : world) :
  exchange json_loads requests_post (recorded user_input w) = (Raise e, w1) ->
  is_Exception e = true ->
  exists (error_msg : string) (w' : world),
    chat json_loads requests_post user_input w = (Return error_msg, w') /\
    stdout w' = (stdout w1 ++ [Print [VStr ("Error: " ++ error_msg)] newline])%list /\
    (is_Timeout e = true -> error_msg = "Request timed out") /\
    (is_Timeout e = false -> is_RequestException e = true ->
     error_msg = "Network error: " ++ str_exn e) /\
    (is_RequestException e = false -> error_msg = "Error: " ++ str_exn e).
Proof.
  intros H He.
  pose proof (exchange_raises json_loads _ _ _ _ H) as Hself.
  assert (Hm : messages (self w1)
               = (messages (self w) ++ [mkMessage "user" user_input])%list)
    by (rewrite Hself; reflexivity).
  destruct (except_clauses_report e w1 _ _ He Hm)
    as (error_msg & w' & Hx & Hout & _ & _ & _ & _ & _ & Hcases).
  exists error_msg, w'. rewrite chat_unfold, H. repeat split; tauto.
Qed.

(** X7.  A bad status is met before any line is read: when
    [raise_for_status] raises, whatever body the response carries, [chat]
    prints the error line only, returns the error text and leaves the object
    as it was. *)
Theorem chat_reads_no_body_after_a_bad_status
  (requests_post : request -> outcome response) (user_input : string)
  (w : world) (resp : response) (e : exn) :
  requests_post (build_request (self (recorded user_input w))) = Return resp ->
  raise_for_status resp = Raise e ->
  is_Exception e = true ->
  exists (error_msg : string) (w' : world),
    chat json_loads requests_post user_input w = (Return error_msg, w') /\
    stdout w' = (stdout w ++ [Print [VStr ("Error: " ++ error_msg)] newline])%list /\
    self w' = self w.
Proof.
  intros Hpost Hstatus He.
  assert (H : exchange json_loads requests_post (recorded user_input w)
              = (Raise e, recorded user_input w)).
  { unfold exchange, bind at 1, get_self. unfold bind at 1, eval.
    rewrite Hpost. unfold bind at 1. rewrite Hstatus. reflexivity. }
  destruct (except_clauses_report e (recorded user_input w)
              (messages (self w)) (mkMessage "user" user_input) He eq_refl)
    as (error_msg & w' & Hx & Hout & H1 & H2 & H3 & H4 & H5 & _).
  exists error_msg, w'. rewrite chat_unfold, H. split; [exact Hx|]. split.
  - exact Hout.
  - apply chatbot_ext; rewrite ?H1, ?H2, ?H3, ?H4, ?H5; reflexivity.
Qed.

(** X8.  An exception that is no [Exception], an interrupt, passes through
    [chat] without a rollback: the call raises it, prints no error line, and
    the history keeps the user's turn that was recorded. *)
Theorem chat_keeps_the_turn_on_interrupt
  (requests_post : request -> outcome response) (user_input : string)
  (w : world) (e : exn) (w1 : world) :
  exchange json_loads requests_post (recorded user_input w) = (Raise e, w1) ->
  is_Exception e = false ->
  chat json_loads requests_post user_input w = (Raise e, w1) /\
  messages (self w1)
  = (messages (self w) ++ [mkMessage "user" user_input])%list.
Proof.
  intros H He.
  pose proof (exchange_raises json_loads _ _ _ _ H) as Hself.
  split.
  - rewrite chat_unfold, H.
    unfold except_clauses, is_Timeout, is_RequestException, is_Exception.
    unfold is_Exception in He.
    destruct (exn_class_of e); try discriminate; reflexivity.
  - rewrite Hself. reflexivity.
Qed.

Lemma turns_app (pairs : list (string * string)) (asked answered : string) :
  turns (pairs ++ [(asked, answered)])
  = (turns pairs ++ [mkMessage "user" asked; mkMessage "assistant" answered])%list.
Proof.
  induction pairs as [|[a b] pairs IH]; simpl; [reflexivity | now rewrite IH].
Qed.

(** A [chat] that returned has stored a whole turn, or nothing. *)
Lemma chat_returned_history (requests_post : request -> outcome response)
  (user_input reply : string) (w w' : world) :
  chat json_loads requests_post user_input w = (Return reply, w') ->
  messages (self w')
  = (messages (self w)
       ++ [mkMessage "user" user_input; mkMessage "assistant" reply])%list \/
  messages (self w') = messages (self w).
Proof.
  rewrite chat_unfold.
  destruct (exchange json_loads requests_post (recorded user_input w))
    as [[r|e] w1] eqn:H.
  - intros Heq. injection Heq as <- <-.
    destruct (exchange_returns json_loads _ _ _ _ H) as (fragments & -> & ->).
    left. simpl. now rewrite <- app_assoc.
  - intros Hx. right.
    pose proof (exchange_raises json_loads _ _ _ _ H) as Hself.
    destruct (is_Exception e) eqn:He.
    + assert (Hm : messages (self w1)
                   = (messages (self w) ++ [mkMessage "user" user_input])%list)
        by (rewrite Hself; reflexivity).
      destruct (except_clauses_pop e w1 _ _ He Hm)
        as (error_msg & w2 & Hx' & H1 & _).
      rewrite Hx' in Hx. injection Hx as <- <-. exact H1.
    + unfold except_clauses, is_Timeout, is_RequestException, is_Exception in Hx.
      unfold is_Exception in He.
      destruct (exn_class_of e); discriminate.
Qed.

Lemma session_turns (ops : list operation) :
  forall w : world,
    (exists pairs, messages (self w) = turns pairs) ->
    all_return json_loads ops w ->
    exists pairs, messages (self (session json_loads ops w)) = turns pairs.
Proof.
  induction ops as [|op ops IH]; intros w Hw Hall; simpl.
  - exact Hw.
  - destruct Hall as [Hop Hall]. apply IH; [|exact Hall].
    destruct op as [requests_post user_input| |prompt]; simpl.
    + destruct Hop as (reply & w' & Hchat). rewrite Hchat. simpl.
      destruct Hw as (pairs & Hp).
      destruct (chat_returned_history _ _ _ _ _ Hchat) as [-> | ->].
      * exists (pairs ++ [(user_input, reply)])%list.
        now rewrite turns_app, Hp.
      * now exists pairs.
    + now exists [].
    + exact Hw.
Qed.

(** X9.  As long as every [chat] returns, the history is a sequence of
    completed turns: after any such sequence of calls on a new chatbot it
    is a user entry followed by the assistant's answer, turn after turn, and
    so never ends with a user entry left unanswered. *)
Theorem history_is_completed_turns
  (api_key model : string) (ops : list operation) :
  all_return json_loads ops (start api_key model) ->
  exists pairs : list (string * string),
    messages (self (session json_loads ops (start api_key model)))
    = turns pairs.
Proof.
  intros Hall. apply session_turns; [now exists [] | exact Hall].
Qed.

(** What [chat] never touches, however it ends. *)
Lemma chat_frame (requests_post : request -> outcome response)
  (user_input : string) (w : world) :
  api_key (self (snd (chat json_loads requests_post user_input w)))
  = api_key (self w) /\
  api_url (self (snd (chat json_loads requests_post user_input w)))
  = api_url (self w) /\
  model (self (snd (chat json_loads requests_post user_input w)))
  = model (self w).
Proof.
  rewrite chat_unfold.
  destruct (exchange json_loads requests_post (recorded user_input w))
    as [[r|e] w1] eqn:H.
  - destruct (exchange_returns json_loads _ _ _ _ H) as (fragments & _ & ->).
    simpl. repeat split.
  - pose proof (exchange_raises json_loads _ _ _ _ H) as Hself.
    destruct (is_Exception e) eqn:He.
    + assert (Hm : messages (self w1)
                   = (messages (self w) ++ [mkMessage "user" user_input])%list)
        by (rewrite Hself; reflexivity).
      destruct (except_clauses_pop e w1 _ _ He Hm)
        as (error_msg & w2 & -> & _ & _ & H3 & H4 & H5).
      simpl. rewrite H3, H4, H5, Hself. repeat split.
    + unfold except_clauses, is_Timeout, is_RequestException, is_Exception.
      unfold is_Exception in He.
      destruct (exn_class_of e); try discriminate;
        (simpl; rewrite Hself; repeat split).
Qed.

(** X10.  The key, the endpoint and the model are those given at
    construction, after any sequence of calls. *)
Theorem session_keeps_key_endpoint_and_model
  (key model_name : string) (ops : list operation) :
  api_key (self (session json_loads ops (start key model_name))) = key /\
  api_url (self (session json_loads ops (start key model_name)))
  = "https://api.openai.com/v1/chat/completions" /\
  model (self (session json_loads ops (start key model_name))) = model_name.
Proof.
  assert (H : forall w,
             api_key (self (session json_loads ops w)) = api_key (self w) /\
             api_url (self (session json_loads ops w)) = api_url (self w) /\
             model (self (session json_loads ops w)) = model (self w)).
  { induction ops as [|op ops IH]; intros w; simpl; [repeat split|].
    destruct (IH (perform json_loads op w)) as (-> & -> & ->).
    destruct op as [requests_post user_input| |prompt]; simpl.
    - apply chat_frame.
    - repeat split.
    - repeat split. }
  apply (H (start key model_name)).
Qed.

End MoreProperties.

(** ** Properties of the command loop *)

Section LoopProperties.

Variable json_loads : string -> outcome value.
Variable lower : string -> string.
Variable network : nat -> request -> outcome response.

(** At the end of the input an iteration shows the prompt, reports the
    [EOFError] and starts over. *)
Lemma repl_end_of_input (fuel : nat) :
  forall (w : world) (calls : nat),
    repl json_loads lower network fuel (mkConsole w EndOfInput calls)
    = (Return Running,
       mkConsole (said w (end_of_input_output fuel)) EndOfInput calls).
Proof.
  induction fuel as [|fuel IH]; intros w calls.
  - simpl. now rewrite said_nil.
  - cbn [repl]. unfold con_bind at 1, con_try_except, turn.
    unfold con_bind at 1, input. cbn.
    rewrite IH. unfold said. cbn. rewrite <- !app_assoc. reflexivity.
Qed.

(** X11.  With a key in the environment and standard input at its end,
    [main] never leaves its loop: after the banner, every iteration shows
    the prompt and reports the end of the input as an unexpected error, and
    however many iterations are run the loop is still running. *)
Theorem main_spins_at_end_of_input
  (getenv : string -> option string) (key : string) (fuel : nat) :
  getenv "OPENAI_API_KEY" = Some key ->
  key <> "" ->
  main json_loads lower network getenv EndOfInput fuel
  = (StillRunning, (banner ++ end_of_input_output fuel)%list).
Proof.
  intros Hkey Hne. unfold main. rewrite Hkey.
  destruct key as [|c key]; [congruence|].
  rewrite repl_end_of_input. reflexivity.
Qed.

(** An exception that leaves [chat] is no [Exception]. *)
Lemma chat_raise_is_no_exception (requests_post : request -> outcome response)
  (user_input : string) (w : world) (e : exn) (w' : world) :
  chat json_loads requests_post user_input w = (Raise e, w') ->
  is_Exception e = false.
Proof.
  rewrite chat_unfold.
  destruct (exchange json_loads requests_post (recorded user_input w))
    as [[r|e0] w1] eqn:H; [discriminate|].
  destruct (is_Exception e0) eqn:He.
  - pose proof (exchange_raises json_loads _ _ _ _ H) as Hself.
    assert (Hm : messages (self w1)
                 = (messages (self w) ++ [mkMessage "user" user_input])%list)
      by (rewrite Hself; reflexivity).
    destruct (except_clauses_pop e0 w1 _ _ He Hm) as (msg & w2 & -> & _).
    discriminate.
  - unfold except_clauses, is_Timeout, is_RequestException, is_Exception.
    unfold is_Exception in He.
    destruct (exn_class_of e0) eqn:Hc; try discriminate;
      (unfold raise; intros Heq; injection Heq as <- <-;
       unfold is_Exception; now rewrite Hc).
Qed.

(** X12.  A line that is no command costs one call of [chat] on that line.
    When [chat] returns, with a reply or with an error text, the loop goes
    on with the next line.  When it raises [KeyboardInterrupt], the farewell
    is printed and the loop ends.  When it raises anything else, which is
    then no [Exception] ([SystemExit], say), neither clause of the loop
    catches it and the exception leaves the loop. *)
Theorem loop_goes_on_after_a_chat_turn
  (fuel : nat) (line : string) (rest : keyboard) (w : world) (calls : nat) :
  is_command lower line = false ->
  (forall reply w',
      chat json_loads (network calls) line
           (said w [Print [VStr (newline ++ "You: ")] "";
                    Print [VStr (newline ++ "GPT: ")] ""])
      = (Return reply, w') ->
      repl json_loads lower network (S fuel) (mkConsole w (Typed line rest) calls)
      = repl json_loads lower network fuel (mkConsole w' rest (S calls))) /\
  (forall e w',
      chat json_loads (network calls) line
           (said w [Print [VStr (newline ++ "You: ")] "";
                    Print [VStr (newline ++ "GPT: ")] ""])
      = (Raise e, w') ->
      is_KeyboardInterrupt e = true ->
      repl json_loads lower network (S fuel) (mkConsole w (Typed line rest) calls)
      = (Return Ended,
         mkConsole
           (said w' [Print [VStr (newline ++ "Interrupted. Goodbye!")] newline])
           rest (S calls))) /\
  (forall e w',
      chat json_loads (network calls) line
           (said w [Print [VStr (newline ++ "You: ")] "";
                    Print [VStr (newline ++ "GPT: ")] ""])
      = (Raise e, w') ->
      is_KeyboardInterrupt e = false ->
      repl json_loads lower network (S fuel) (mkConsole w (Typed line rest) calls)
      = (Raise e, mkConsole w' rest (S calls))).
Proof.
  intros Hcmd. unfold is_command in Hcmd.
  apply orb_false_elim in Hcmd. destruct Hcmd as [Hcmd Hsystem].
  apply orb_false_elim in Hcmd. destruct Hcmd as [Hcmd Hclear].
  assert (Hturn : con_try_except (turn json_loads lower network) turn_except
                    (mkConsole w (Typed line rest) calls)
                  = con_try_except
                      (con_bind (chatbot_chat json_loads network line)
                                (fun _ => con_ret Next))
                      turn_except
                      (mkConsole
                         (said w [Print [VStr (newline ++ "You: ")] "";
                                  Print [VStr (newline ++ "GPT: ")] ""])
                         rest calls)).
  { unfold con_try_except, turn. unfold con_bind at 1, input. cbn.
    rewrite Hcmd, Hclear, Hsystem. cbn.
    unfold con_bind at 1, on_world, print. cbn.
    unfold said. cbn. rewrite <- app_assoc. reflexivity. }
  split; [|split].
  - intros reply w' Hchat. cbn [repl]. unfold con_bind at 1. rewrite Hturn.
    unfold con_try_except, con_bind, chatbot_chat. cbn.
    unfold said in Hchat. cbn in Hchat. rewrite Hchat. reflexivity.
  - intros e w' Hchat He. cbn [repl]. unfold con_bind at 1. rewrite Hturn.
    unfold con_try_except, con_bind, chatbot_chat. cbn.
    unfold said in Hchat. cbn in Hchat. rewrite Hchat.
    unfold turn_except. rewrite He. reflexivity.
  - intros e w' Hchat He. cbn [repl]. unfold con_bind at 1. rewrite Hturn.
    pose proof (chat_raise_is_no_exception _ _ _ _ _ Hchat) as Hno.
    unfold con_try_except, con_bind, chatbot_chat. cbn.
    unfold said in Hchat. cbn in Hchat. rewrite Hchat.
    unfold turn_except. rewrite He, Hno. reflexivity.
Qed.

(** X13.  After the command [system] the next line typed becomes the system
    prompt as it is, also when it reads like a command: it is neither
    lowered nor interpreted, the history is untouched, [chat] is not called
    and the loop goes on. *)
Theorem system_command_takes_the_next_line
  (fuel : nat) (line prompt : string) (rest : keyboard) (w : world) (calls : nat) :
  lower line = "system" ->
  exists w' : world,
    repl json_loads lower network (S fuel)
         (mkConsole w (Typed line (Typed prompt rest)) calls)
    = repl json_loads lower network fuel (mkConsole w' rest calls) /\
    system_message (self w') = prompt /\
    messages (self w') = messages (self w) /\
    stdout w'
    = (stdout w
         ++ [Print [VStr (newline ++ "You: ")] "";
             Print [VStr "Enter new system message: "] "";
             Print [VStr "System message updated."] newline])%list.
Proof.
  intros Hlower. eexists. split.
  - cbn [repl]. unfold con_bind at 1, con_try_except, turn.
    unfold con_bind at 1, input. cbn. rewrite Hlower. cbn. reflexivity.
  - cbn. repeat split. now rewrite <- !app_assoc.
Qed.

End LoopProperties.

(** ** Properties of the script [sse_raw.py] *)

(** Text lines at the front of a body are echoed, the empty ones passed
    over, and the loop goes on with what follows. *)
Lemma raw_print_text_lines (texts : list string) :
  forall (rest : line_stream) (out : list printed),
    raw_print_lines (lines_then (map Utf8 texts) rest) out
    = raw_print_lines rest (out ++ map raw_echo (filter nonempty texts))%list.
Proof.
  induction texts as [|t texts IH]; intros rest out; cbn [map lines_then filter].
  - now rewrite app_nil_r.
  - cbn [raw_print_lines]. destruct t as [|c t].
    + cbn. apply IH.
    + cbn. rewrite IH, <- app_assoc. reflexivity.
Qed.

(** X14.  On a body of text lines that ends normally the script prints
    every line that is not empty, in order, each followed by an empty line,
    and returns; it knows no sentinel, so [data: [DONE]] is printed like any
    other line and the lines after it as well. *)
Theorem sse_raw_echoes_every_line
  (getenv : string -> option string) (prompt : string) (rest : keyboard)
  (requests_post : raw_request -> outcome response) (resp : response)
  (texts : list string) :
  requests_post (raw_build_request getenv prompt) = Return resp ->
  raise_for_status resp = Return tt ->
  iter_lines resp = lines_then (map Utf8 texts) EndOfBody ->
  sse_raw getenv (Typed prompt rest) requests_post
  = (Return tt,
     Print [VStr "User: "] "" :: map raw_echo (filter nonempty texts)).
Proof.
  intros Hpost Hstatus Hbody. unfold sse_raw, raw_try.
  rewrite Hpost, Hstatus, Hbody, raw_print_text_lines. reflexivity.
Qed.

(** X15.  When the body breaks off with a request error after some text
    lines, the script has echoed those lines, then prints
    ["Request failed: "] with the error's text and ends normally. *)
Theorem sse_raw_reports_a_request_error
  (getenv : string -> option string) (prompt : string) (rest : keyboard)
  (requests_post : raw_request -> outcome response) (resp : response)
  (texts : list string) (e : exn) :
  requests_post (raw_build_request getenv prompt) = Return resp ->
  raise_for_status resp = Return tt ->
  iter_lines resp = lines_then (map Utf8 texts) (Broken e) ->
  is_RequestException e = true ->
  sse_raw getenv (Typed prompt rest) requests_post
  = (Return tt,
     (Print [VStr "User: "] "" :: map raw_echo (filter nonempty texts))
       ++ [Print [VStr ("Request failed: " ++ str_exn e)] newline])%list.
Proof.
  intros Hpost Hstatus Hbody He. unfold sse_raw, raw_try.
  rewrite Hpost, Hstatus, Hbody, raw_print_text_lines.
  cbn [raw_print_lines]. rewrite He. reflexivity.
Qed.

(** X16.  Only request errors are caught: a line that is not valid UTF-8
    ends the script with the [UnicodeDecodeError] of its decoding, uncaught,
    after the text lines before it have been echoed; the lines after it are
    not read. *)
Theorem sse_raw_stops_at_an_undecodable_line
  (getenv : string -> option string) (prompt : string) (rest : keyboard)
  (requests_post : raw_request -> outcome response) (resp : response)
  (texts : list string) (bytes message_ : string) (after : line_stream) :
  requests_post (raw_build_request getenv prompt) = Return resp ->
  raise_for_status resp = Return tt ->
  iter_lines resp
  = lines_then (map Utf8 texts) (Line (Undecodable bytes message_) after) ->
  bytes <> "" ->
  sse_raw getenv (Typed prompt rest) requests_post
  = (Raise (mkExn UnicodeDecodeError message_),
     Print [VStr "User: "] "" :: map raw_echo (filter nonempty texts)).
Proof.
  intros Hpost Hstatus Hbody Hbytes. unfold sse_raw, raw_try.
  rewrite Hpost, Hstatus, Hbody, raw_print_text_lines.
  cbn [raw_print_lines]. unfold truthy. cbn [raw_bytes].
  destruct bytes as [|c bytes]; [congruence|]. reflexivity.
Qed.

(** ** The further statements at concrete inputs *)

(** The two content lines of the scenario yield ["A"] and ["B"]. *)
Lemma ab_lines_yield : Forall2 (yields Json.loads) ab_lines ["A"; "B"].
Proof. repeat constructor. Qed.

Lemma content_event_yields_its_content_witness :
  hi_event <> "[DONE]" /\
  Json.loads hi_event
  = Return (VDict [("choices",
                    VList [VDict [("delta", VDict [("content", VStr "Hi")])]])]) /\
  dict_lookup "choices"
    [("choices", VList [VDict [("delta", VDict [("content", VStr "Hi")])]])]
  = Some (VList [VDict [("delta", VDict [("content", VStr "Hi")])]]) /\
  dict_lookup "delta" [("delta", VDict [("content", VStr "Hi")])]
  = Some (VDict [("content", VStr "Hi")]) /\
  dict_lookup "content" [("content", VStr "Hi")] = Some (VStr "Hi") /\
  is_ascii "Hi" = true /\
  loop_body Json.loads "A" (Utf8 ("data: " ++ hi_event)) after_one_turn
  = (Return (Next, "A" ++ "Hi"), said after_one_turn [fragment "Hi"]).
Proof.
  assert (Hdone : hi_event <> "[DONE]") by (vm_compute; discriminate).
  assert (Hloads : Json.loads hi_event
                   = Return (VDict [("choices",
                       VList [VDict [("delta", VDict [("content", VStr "Hi")])]])]))
    by (vm_compute; reflexivity).
  split; [exact Hdone|]. split; [exact Hloads|].
  split; [reflexivity|]. split; [reflexivity|]. split; [reflexivity|].
  split; [reflexivity|].
  exact (content_event_yields_its_content Json.loads hi_event _ _ _ [] "Hi" "A"
           after_one_turn Hdone Hloads eq_refl eq_refl eq_refl eq_refl).
Defined.

Lemma event_without_content_is_skipped_witness :
  role_event <> "[DONE]" /\
  Json.loads role_event
  = Return (VDict [("choices",
                    VList [VDict [("delta", VDict [("role", VStr "assistant")])]])]) /\
  (dict_lookup "choices"
     [("choices", VList [VDict [("delta", VDict [("role", VStr "assistant")])]])]
   = None \/
   (exists choices,
       dict_lookup "choices"
         [("choices", VList [VDict [("delta", VDict [("role", VStr "assistant")])]])]
       = Some choices /\ len choices = Return 0%Z) \/
   (exists first more delta,
       dict_lookup "choices"
         [("choices", VList [VDict [("delta", VDict [("role", VStr "assistant")])]])]
       = Some (VList (VDict first :: more)) /\
       get (VDict first) "delta" (VDict []) = Return delta /\
       contains "content" delta = Return false)) /\
  loop_body Json.loads "A" (Utf8 ("data: " ++ role_event)) after_one_turn
  = (Return (Next, "A"), after_one_turn).
Proof.
  assert (Hdone : role_event <> "[DONE]") by (vm_compute; discriminate).
  assert (Hloads : Json.loads role_event
                   = Return (VDict [("choices",
                       VList [VDict [("delta", VDict [("role", VStr "assistant")])]])]))
    by (vm_compute; reflexivity).
  assert (Hshape :
            dict_lookup "choices"
              [("choices", VList [VDict [("delta", VDict [("role", VStr "assistant")])]])]
            = None \/
            (exists choices,
                dict_lookup "choices"
                  [("choices", VList [VDict [("delta", VDict [("role", VStr "assistant")])]])]
                = Some choices /\ len choices = Return 0%Z) \/
            (exists first more delta,
                dict_lookup "choices"
                  [("choices", VList [VDict [("delta", VDict [("role", VStr "assistant")])]])]
                = Some (VList (VDict first :: more)) /\
                get (VDict first) "delta" (VDict []) = Return delta /\
                contains "content" delta = Return false)).
  { right. right.
    exists [("delta", VDict [("role", VStr "assistant")])], [],
           (VDict [("role", VStr "assistant")]).
    repeat split. }
  split; [exact Hdone|]. split; [exact Hloads|]. split; [exact Hshape|].
  exact (event_without_content_is_skipped Json.loads role_event _ "A"
           after_one_turn Hdone Hloads Hshape).
Defined.

Lemma content_that_is_no_str_raises_witness :
  null_event <> "[DONE]" /\
  Json.loads null_event
  = Return (VDict [("choices",
                    VList [VDict [("delta", VDict [("content", VNone)])]])]) /\
  dict_lookup "choices"
    [("choices", VList [VDict [("delta", VDict [("content", VNone)])]])]
  = Some (VList [VDict [("delta", VDict [("content", VNone)])]]) /\
  dict_lookup "delta" [("delta", VDict [("content", VNone)])]
  = Some (VDict [("content", VNone)]) /\
  dict_lookup "content" [("content", VNone)] = Some VNone /\
  (forall s, VNone <> VStr s) /\
  loop_body Json.loads "A" (Utf8 ("data: " ++ null_event)) after_one_turn
  = (Raise (mkExn TypeError
              ("can only concatenate str (not " ++ dquote ++ type_name VNone
                 ++ dquote ++ ") to str")),
     said after_one_turn [Print [VNone] ""]).
Proof.
  assert (Hdone : null_event <> "[DONE]") by (vm_compute; discriminate).
  assert (Hloads : Json.loads null_event
                   = Return (VDict [("choices",
                       VList [VDict [("delta", VDict [("content", VNone)])]])]))
    by (vm_compute; reflexivity).
  assert (Hv : forall s, VNone <> VStr s) by discriminate.
  split; [exact Hdone|]. split; [exact Hloads|].
  split; [reflexivity|]. split; [reflexivity|]. split; [reflexivity|].
  split; [exact Hv|].
  exact (content_that_is_no_str_raises Json.loads null_event _ _ _ [] VNone "A"
           after_one_turn Hdone Hloads eq_refl eq_refl eq_refl Hv).
Defined.

Lemma chat_returns_the_fragments_in_order_witness :
  answer (Return tt) (lines_then ab_lines (Line (Utf8 "data: [DONE]") (Broken read_timeout)))
    (build_request (self (recorded "Hello" (start "key" default_model))))
  = Return (mkResponse (Return tt)
              (lines_then ab_lines (Line (Utf8 "data: [DONE]") (Broken read_timeout)))) /\
  (Line (Utf8 "data: [DONE]") (Broken read_timeout) = EndOfBody \/
   exists after,
     Line (Utf8 "data: [DONE]") (Broken read_timeout)
     = Line (Utf8 "data: [DONE]") after) /\
  Forall2 (yields Json.loads) ab_lines ["A"; "B"] /\
  exists w' : world,
    chat Json.loads
      (answer (Return tt)
         (lines_then ab_lines (Line (Utf8 "data: [DONE]") (Broken read_timeout))))
      "Hello" (start "key" default_model)
    = (Return (joined ["A"; "B"]), w') /\
    stdout w'
    = (stdout (start "key" default_model) ++ map fragment ["A"; "B"]
         ++ [Print [] newline])%list /\
    messages (self w')
    = (messages (self (start "key" default_model))
         ++ [mkMessage "user" "Hello";
             mkMessage "assistant" (joined ["A"; "B"])])%list.
Proof.
  assert (Hend : Line (Utf8 "data: [DONE]") (Broken read_timeout) = EndOfBody \/
                 exists after,
                   Line (Utf8 "data: [DONE]") (Broken read_timeout)
                   = Line (Utf8 "data: [DONE]") after)
    by (right; exists (Broken read_timeout); reflexivity).
  split; [reflexivity|]. split; [exact Hend|]. split; [exact ab_lines_yield|].
  exact (chat_returns_the_fragments_in_order Json.loads
           (answer (Return tt)
              (lines_then ab_lines
                 (Line (Utf8 "data: [DONE]") (Broken read_timeout))))
           "Hello" (start "key" default_model)
           (mkResponse (Return tt)
              (lines_then ab_lines
                 (Line (Utf8 "data: [DONE]") (Broken read_timeout))))
           ab_lines ["A"; "B"]
           (Line (Utf8 "data: [DONE]") (Broken read_timeout))
           eq_refl eq_refl eq_refl Hend ab_lines_yield).
Defined.

Lemma chat_drops_a_partial_reply_witness :
  answer (Return tt) (lines_then ab_lines (Broken read_timeout))
    (build_request (self (recorded "And now?" after_one_turn)))
  = Return (mkResponse (Return tt) (lines_then ab_lines (Broken read_timeout))) /\
  Forall2 (yields Json.loads) ab_lines ["A"; "B"] /\
  is_Exception read_timeout = true /\
  exists (error_msg : string) (w' : world),
    chat Json.loads (answer (Return tt) (lines_then ab_lines (Broken read_timeout)))
      "And now?" after_one_turn
    = (Return error_msg, w') /\
    stdout w'
    = (stdout after_one_turn ++ map fragment ["A"; "B"]
         ++ [Print [VStr ("Error: " ++ error_msg)] newline])%list /\
    self w' = self after_one_turn.
Proof.
  split; [reflexivity|]. split; [exact ab_lines_yield|]. split; [reflexivity|].
  exact (chat_drops_a_partial_reply Json.loads
           (answer (Return tt) (lines_then ab_lines (Broken read_timeout)))
           "And now?" after_one_turn
           (mkResponse (Return tt) (lines_then ab_lines (Broken read_timeout)))
           ab_lines ["A"; "B"] read_timeout
           eq_refl eq_refl eq_refl ab_lines_yield eq_refl).
Defined.

Lemma chat_reports_the_failure_witness :
  exchange Json.loads (refuse server_error) (recorded "And now?" after_one_turn)
  = (Raise server_error, recorded "And now?" after_one_turn) /\
  is_Exception server_error = true /\
  exists (error_msg : string) (w' : world),
    chat Json.loads (refuse server_error) "And now?" after_one_turn
    = (Return error_msg, w') /\
    stdout w'
    = (stdout (recorded "And now?" after_one_turn)
         ++ [Print [VStr ("Error: " ++ error_msg)] newline])%list /\
    (is_Timeout server_error = true -> error_msg = "Request timed out") /\
    (is_Timeout server_error = false -> is_RequestException server_error = true ->
     error_msg = "Network error: " ++ str_exn server_error) /\
    (is_RequestException server_error = false ->
     error_msg = "Error: " ++ str_exn server_error).
Proof.
  split; [reflexivity|]. split; [reflexivity|].
  exact (chat_reports_the_failure Json.loads (refuse server_error) "And now?"
           after_one_turn server_error (recorded "And now?" after_one_turn)
           eq_refl eq_refl).
Defined.

Lemma chat_reads_no_body_after_a_bad_status_witness :
  answer (Raise server_error) scenario
    (build_request (self (recorded "And now?" after_one_turn)))
  = Return (mkResponse (Raise server_error) scenario) /\
  raise_for_status (mkResponse (Raise server_error) scenario) = Raise server_error /\
  is_Exception server_error = true /\
  exists (error_msg : string) (w' : world),
    chat Json.loads (answer (Raise server_error) scenario) "And now?" after_one_turn
    = (Return error_msg, w') /\
    stdout w'
    = (stdout after_one_turn
         ++ [Print [VStr ("Error: " ++ error_msg)] newline])%list /\
    self w' = self after_one_turn.
Proof.
  split; [reflexivity|]. split; [reflexivity|]. split; [reflexivity|].
  exact (chat_reads_no_body_after_a_bad_status Json.loads
           (answer (Raise server_error) scenario) "And now?" after_one_turn
           (mkResponse (Raise server_error) scenario) server_error
           eq_refl eq_refl eq_refl).
Defined.

Lemma chat_keeps_the_turn_on_interrupt_witness :
  exchange Json.loads (serve (lines_then ab_lines (Broken interrupt)))
    (recorded "And now?" after_one_turn)
  = (Raise interrupt,
     said (recorded "And now?" after_one_turn) [fragment "A"; fragment "B"]) /\
  is_Exception interrupt = false /\
  chat Json.loads (serve (lines_then ab_lines (Broken interrupt))) "And now?"
    after_one_turn
  = (Raise interrupt,
     said (recorded "And now?" after_one_turn) [fragment "A"; fragment "B"]) /\
  messages (self (said (recorded "And now?" after_one_turn)
                       [fragment "A"; fragment "B"]))
  = (messages (self after_one_turn) ++ [mkMessage "user" "And now?"])%list.
Proof.
  assert (H : exchange Json.loads (serve (lines_then ab_lines (Broken interrupt)))
                (recorded "And now?" after_one_turn)
              = (Raise interrupt,
                 said (recorded "And now?" after_one_turn)
                      [fragment "A"; fragment "B"]))
    by (vm_compute; reflexivity).
  split; [exact H|]. split; [reflexivity|].
  exact (chat_keeps_the_turn_on_interrupt Json.loads _ "And now?" after_one_turn
           interrupt _ H eq_refl).
Defined.

Lemma history_is_completed_turns_witness :
  all_return Json.loads three_calls (start "key" default_model) /\
  exists pairs : list (string * string),
    messages (self (session Json.loads three_calls (start "key" default_model)))
    = turns pairs.
Proof.
  assert (H : all_return Json.loads three_calls (start "key" default_model)).
  { cbn [all_return three_calls]. split.
    - eexists. eexists. vm_compute. reflexivity.
    - split; [exact I|]. split; [|exact I].
      eexists. eexists. vm_compute. reflexivity. }
  split; [exact H|].
  exact (history_is_completed_turns Json.loads "key" default_model three_calls H).
Defined.

Lemma main_spins_at_end_of_input_witness :
  with_key "OPENAI_API_KEY" = Some "key" /\
  "key" <> "" /\
  main Json.loads ascii_lower (fun _ => serve scenario) with_key EndOfInput 3
  = (StillRunning, (banner ++ end_of_input_output 3)%list).
Proof.
  assert (Hne : "key" <> "") by discriminate.
  split; [reflexivity|]. split; [exact Hne|].
  exact (main_spins_at_end_of_input Json.loads ascii_lower
           (fun _ => serve scenario) with_key "key" 3 eq_refl Hne).
Defined.

Lemma loop_goes_on_after_a_chat_turn_witness :
  is_command ascii_lower "Hello" = false /\
  repl Json.loads ascii_lower (fun _ => refuse read_timeout) 3
       (mkConsole (start "key" default_model) (Typed "Hello" EndOfInput) 0)
  = repl Json.loads ascii_lower (fun _ => refuse read_timeout) 2
         (mkConsole
            (said (start "key" default_model)
                  [Print [VStr (newline ++ "You: ")] "";
                   Print [VStr (newline ++ "GPT: ")] "";
                   Print [VStr "Error: Request timed out"] newline])
            EndOfInput 1) /\
  repl Json.loads ascii_lower (fun _ => refuse interrupt) 3
       (mkConsole (start "key" default_model) (Typed "Hello" EndOfInput) 0)
  = (Return Ended,
     mkConsole
       (said (recorded "Hello"
                (said (start "key" default_model)
                      [Print [VStr (newline ++ "You: ")] "";
                       Print [VStr (newline ++ "GPT: ")] ""]))
             [Print [VStr (newline ++ "Interrupted. Goodbye!")] newline])
       EndOfInput 1) /\
  repl Json.loads ascii_lower (fun _ => refuse system_exit) 3
       (mkConsole (start "key" default_model) (Typed "Hello" EndOfInput) 0)
  = (Raise system_exit,
     mkConsole
       (recorded "Hello"
          (said (start "key" default_model)
                [Print [VStr (newline ++ "You: ")] "";
                 Print [VStr (newline ++ "GPT: ")] ""]))
       EndOfInput 1).
Proof.
  split; [reflexivity|]. split; [|split].
  - exact (proj1 (loop_goes_on_after_a_chat_turn Json.loads ascii_lower
                    (fun _ => refuse read_timeout) 2 "Hello" EndOfInput
                    (start "key" default_model) 0 eq_refl)
             "Request timed out"
             (said (start "key" default_model)
                   [Print [VStr (newline ++ "You: ")] "";
                    Print [VStr (newline ++ "GPT: ")] "";
                    Print [VStr "Error: Request timed out"] newline])
             eq_refl).
  - exact (proj1 (proj2 (loop_goes_on_after_a_chat_turn Json.loads ascii_lower
                           (fun _ => refuse interrupt) 2 "Hello" EndOfInput
                           (start "key" default_model) 0 eq_refl))
             interrupt
             (recorded "Hello"
                (said (start "key" default_model)
                      [Print [VStr (newline ++ "You: ")] "";
                       Print [VStr (newline ++ "GPT: ")] ""]))
             eq_refl eq_refl).
  - exact (proj2 (proj2 (loop_goes_on_after_a_chat_turn Json.loads ascii_lower
                           (fun _ => refuse system_exit) 2 "Hello" EndOfInput
                           (start "key" default_model) 0 eq_refl))
             system_exit
             (recorded "Hello"
                (said (start "key" default_model)
                      [Print [VStr (newline ++ "You: ")] "";
                       Print [VStr (newline ++ "GPT: ")] ""]))
             eq_refl eq_refl).
Defined.

Lemma system_command_takes_the_next_line_witness :
  ascii_lower "System" = "system" /\
  exists w' : world,
    repl Json.loads ascii_lower (fun _ => serve scenario) 3
         (mkConsole after_one_turn (Typed "System" (Typed "quit" EndOfInput)) 1)
    = repl Json.loads ascii_lower (fun _ => serve scenario) 2
           (mkConsole w' EndOfInput 1) /\
    system_message (self w') = "quit" /\
    messages (self w') = messages (self after_one_turn) /\
    stdout w'
    = (stdout after_one_turn
         ++ [Print [VStr (newline ++ "You: ")] "";
             Print [VStr "Enter new system message: "] "";
             Print [VStr "System message updated."] newline])%list.
Proof.
  split; [reflexivity|].
  exact (system_command_takes_the_next_line Json.loads ascii_lower
           (fun _ => serve scenario) 2 "System" "quit" EndOfInput
           after_one_turn 1 eq_refl).
Defined.

Lemma sse_raw_echoes_every_line_witness :
  raw_answer (Return tt) (lines_then (map Utf8 raw_texts) EndOfBody)
    (raw_build_request with_key "Hello")
  = Return (mkResponse (Return tt) (lines_then (map Utf8 raw_texts) EndOfBody)) /\
  sse_raw with_key (Typed "Hello" EndOfInput)
    (raw_answer (Return tt) (lines_then (map Utf8 raw_texts) EndOfBody))
  = (Return tt,
     Print [VStr "User: "] "" :: map raw_echo (filter nonempty raw_texts)).
Proof.
  split; [reflexivity|].
  exact (sse_raw_echoes_every_line with_key "Hello" EndOfInput
           (raw_answer (Return tt) (lines_then (map Utf8 raw_texts) EndOfBody))
           (mkResponse (Return tt) (lines_then (map Utf8 raw_texts) EndOfBody))
           raw_texts eq_refl eq_refl eq_refl).
Defined.

Lemma sse_raw_reports_a_request_error_witness :
  raw_answer (Return tt) (lines_then (map Utf8 raw_texts) (Broken read_timeout))
    (raw_build_request with_key "Hello")
  = Return (mkResponse (Return tt)
              (lines_then (map Utf8 raw_texts) (Broken read_timeout))) /\
  is_RequestException read_timeout = true /\
  sse_raw with_key (Typed "Hello" EndOfInput)
    (raw_answer (Return tt) (lines_then (map Utf8 raw_texts) (Broken read_timeout)))
  = (Return tt,
     (Print [VStr "User: "] "" :: map raw_echo (filter nonempty raw_texts))
       ++ [Print [VStr ("Request failed: " ++ str_exn read_timeout)] newline])%list.
Proof.
  split; [reflexivity|]. split; [reflexivity|].
  exact (sse_raw_reports_a_request_error with_key "Hello" EndOfInput
           (raw_answer (Return tt)
              (lines_then (map Utf8 raw_texts) (Broken read_timeout)))
           (mkResponse (Return tt)
              (lines_then (map Utf8 raw_texts) (Broken read_timeout)))
           raw_texts read_timeout eq_refl eq_refl eq_refl eq_refl).
Defined.

Lemma sse_raw_stops_at_an_undecodable_line_witness :
  raw_answer (Return tt)
    (lines_then (map Utf8 raw_texts) (Line undecodable_line scenario))
    (raw_build_request with_key "Hello")
  = Return (mkResponse (Return tt)
              (lines_then (map Utf8 raw_texts) (Line undecodable_line scenario))) /\
  raw_bytes undecodable_line <> "" /\
  sse_raw with_key (Typed "Hello" EndOfInput)
    (raw_answer (Return tt)
       (lines_then (map Utf8 raw_texts) (Line undecodable_line scenario)))
  = (Raise (mkExn UnicodeDecodeError
              "'utf-8' codec can't decode byte 0xff in position 0: invalid start byte"),
     Print [VStr "User: "] "" :: map raw_echo (filter nonempty raw_texts)).
Proof.
  assert (Hne : raw_bytes undecodable_line <> "") by discriminate.
  split; [reflexivity|]. split; [exact Hne|].
  exact (sse_raw_stops_at_an_undecodable_line with_key "Hello" EndOfInput
           (raw_answer (Return tt)
              (lines_then (map Utf8 raw_texts) (Line undecodable_line scenario)))
           (mkResponse (Return tt)
              (lines_then (map Utf8 raw_texts) (Line undecodable_line scenario)))
           raw_texts (raw_bytes undecodable_line)
           "'utf-8' codec can't decode byte 0xff in position 0: invalid start byte"
           scenario eq_refl eq_refl eq_refl Hne).
Defined.

End Chatbot.
